(** * VRF reconciliation (src/conf_mode/vrf.py)

    A shallow embedding of the three phases of the VyOS VRF configuration
    script: [get_config] (state reading), [verify] (validation) and [apply]
    (the ordered system calls), followed by the properties of the
    specification that concern them.

    Python values are modelled as follows:
    - [str] is [string], each character being a code point below 256; a
      value that is [None] or a [str] is [option string], [None] being
      Python's [None];
    - an [int] is [Z];
    - a [dict] whose iteration order matters is an association list;
    - the dictionaries built by [get_config] are records, one field per key;
    - a raised exception is the left summand of the result. *)

From Stdlib Require Import List String Ascii ZArith Bool Lia Arith.
From Stdlib Require Import DecimalString.
Import ListNotations.
Local Open Scope string_scope.
Local Open Scope list_scope.

Set Implicit Arguments.

(* ================================================================== *)
(** ** Strings as Python prints them *)

Module Py.

(** The double quote character, [chr(34)]. *)
Definition dquote : string := String (ascii_of_nat 34) EmptyString.

(** The NUL character as a one-character string, Python's ['\0']. *)
Definition nul : string := String (ascii_of_nat 0) EmptyString.

(** [str(n)] for an [int]. *)
Definition str_int (n : Z) : string := NilZero.string_of_int (Z.to_int n).

(** [f'{v}'] for a value that is [None] or a [str]. *)
Definition format (v : option string) : string :=
  match v with
  | Some s => s
  | None => "None"
  end.

(** Truth value of a value that is [None] or a [str]: [None] and the empty
    string are false. *)
Definition truthy (v : option string) : bool :=
  match v with
  | Some (String _ _) => true
  | _ => false
  end.

Definition option_string_eqb (a b : option string) : bool :=
  match a, b with
  | Some x, Some y => String.eqb x y
  | None, None => true
  | _, _ => false
  end.

(** [str.isspace] on the code points below 256: space, [\t \n \v \f \r],
    the separators [\x1c] to [\x1f], the next-line control [\x85] and the
    no-break space [\xa0]. *)
Definition isspace (c : ascii) : bool :=
  let n := nat_of_ascii c in
  (n =? 32)%nat || ((9 <=? n)%nat && (n <=? 13)%nat)
  || ((28 <=? n)%nat && (n <=? 31)%nat)
  || (n =? 133)%nat || (n =? 160)%nat.

Fixpoint split_from (word : string) (s : string) : list string :=
  match s with
  | EmptyString =>
      match word with EmptyString => [] | _ => [word] end
  | String c rest =>
      if isspace c then
        match word with
        | EmptyString => split_from EmptyString rest
        | _ => word :: split_from EmptyString rest
        end
      else split_from (word ++ String c EmptyString) rest
  end.

(** [s.split()]: the maximal runs of non-space characters. *)
Definition split (s : string) : list string := split_from EmptyString s.

Fixpoint contains_char (c : ascii) (s : string) : bool :=
  match s with
  | EmptyString => false
  | String d rest => Ascii.eqb c d || contains_char c rest
  end.

Definition hex_digit (n : nat) : ascii :=
  if (n <? 10)%nat then ascii_of_nat (48 + n) else ascii_of_nat (87 + n).

(** One character of [repr(s)], [q] being the quote in use.  The code points
    that Python does not print are written [\xNN]: the controls below 32, and
    of the code points from 127 on, [\x7f] to [\xa0] and the soft hyphen
    [\xad]. *)
Definition repr_char (q : ascii) (c : ascii) : string :=
  let n := nat_of_ascii c in
  if Ascii.eqb c q || (n =? 92)%nat then String (ascii_of_nat 92) (String c EmptyString)
  else if (n =? 9)%nat then String (ascii_of_nat 92) "t"
  else if (n =? 10)%nat then String (ascii_of_nat 92) "n"
  else if (n =? 13)%nat then String (ascii_of_nat 92) "r"
  else if (n <? 32)%nat || ((127 <=? n)%nat && (n <=? 160)%nat) || (n =? 173)%nat then
    String (ascii_of_nat 92)
      (String "x" (String (hex_digit (n / 16)) (String (hex_digit (n mod 16)) EmptyString)))
  else String c EmptyString.

Fixpoint repr_body (q : ascii) (s : string) : string :=
  match s with
  | EmptyString => EmptyString
  | String c rest => repr_char q c ++ repr_body q rest
  end.

(** [repr(s)] for a [str]: single quotes, unless the string holds a single
    quote and no double quote. *)
Definition repr_str (s : string) : string :=
  let sq := ascii_of_nat 39 in
  let dq := ascii_of_nat 34 in
  let q := if contains_char sq s && negb (contains_char dq s) then dq else sq in
  String q (repr_body q s ++ String q EmptyString).

(** [repr(l)] for a [list] of [str]. *)
Definition repr_list (l : list string) : string :=
  "[" ++ String.concat ", " (map repr_str l) ++ "]".

(** Substring test, Python's [p in s]. *)
Fixpoint is_infix (p s : string) : bool :=
  String.prefix p s ||
  match s with
  | EmptyString => false
  | String _ rest => is_infix p rest
  end.

End Py.

(* ================================================================== *)
(** ** The configuration store *)

Definition path := list string.

(** The tree returned by [get_config_dict('interfaces')]: interface type, then
    interface name, then the attributes of the interface.  Python dictionaries
    iterate in insertion order and have unique keys, so each level is an
    association list walked front to back. *)
Definition attributes := list (string * string).
Definition section := list (string * list (string * attributes)).

(** Modelled from the spec: the class [vyos.config.Config], which is imported
    by the script and not part of the sources at hand.  The specification lists
    its queries ([Exists], [ListNodes], [ListEffectiveNodes], [ReturnValue],
    [ReturnEffectiveValue]) over hierarchical paths; the store is a parameter
    of everything below.  All queries take the absolute path: the script's
    [set_level] is the prefix that [get_config] puts in front of a relative
    path. *)
Record Config : Type := {
  exists_ : path -> bool;
  list_nodes : path -> list string;
  list_effective_nodes : path -> list string;
  return_value : path -> option string;
  return_effective_value : path -> option string;
  get_config_dict_interfaces : section
}.

(** Modelled from the spec: [vyos.configdict.list_diff], imported by the script
    and not part of the sources at hand.  The specification gives
    [toRemove = previousNames - names(declared)]: the items of [first] that are
    not in [second], in the order of [first]. *)
Definition list_diff (first second : list string) : list string :=
  filter (fun item => negb (existsb (String.eqb item) second)) first.

(* ================================================================== *)
(** ** The reconciliation plan *)

(** An entry of [vrf_add]: the dictionary [vrf_inst] of lines 81-87. *)
Record vrf_inst : Type := {
  description : option string;
  members : list string;
  name : string;
  table : option string;
  table_mod : bool
}.

(** An entry of [vrf_remove] once [get_config] returns: the dictionary of
    lines 112-115, with the keys ['members'] and ['name'] in that order. *)
Record vrf_gone : Type := {
  gone_members : list string;
  gone_name : string
}.

(** The dictionary [vrf_config], with the keys of [default_config_data]. *)
Record vrf_config : Type := {
  bind_to_all : Z;
  deleted : bool;
  vrf_add : list vrf_inst;
  vrf_existing : list string;
  vrf_remove : list vrf_gone
}.

(** [default_config_data], lines 26-32. *)
Definition default_config_data : vrf_config :=
  {| bind_to_all := 0;
     deleted := false;
     vrf_add := [];
     vrf_existing := [];
     vrf_remove := [] |}.

Fixpoint dict_get (key : string) (d : attributes) : option string :=
  match d with
  | [] => None
  | (k, v) :: rest => if String.eqb k key then Some v else dict_get key rest
  end.

(** [interfaces_with_vrf(match)], lines 44-56: the names of the interfaces
    whose ['vrf'] attribute is [match], in the order of the section. *)
Definition interfaces_with_vrf (conf : Config) (match_ : string) : list string :=
  flat_map
    (fun type_interfaces : string * list (string * attributes) =>
       flat_map
         (fun name_interface : string * attributes =>
            match dict_get "vrf" (snd name_interface) with
            | Some v => if String.eqb v match_ then [fst name_interface] else []
            | None => []
            end)
         (snd type_interfaces))
    (get_config_dict_interfaces conf).

(** The body of the loop of lines 80-106 for one declared name.  [level] is
    the path given to [set_level] on line 88; the paths of lines 90-100 are
    relative to it. *)
Definition read_vrf (conf : Config) (cfg_base : path) (name0 : string) : vrf_inst :=
  let level := cfg_base ++ ["name"; name0] in
  let '(table0, table_mod0) :=
    if exists_ conf (level ++ ["table"]) then
      let act_table := return_value conf (level ++ ["table"]) in
      let eff_table := return_effective_value conf (level ++ ["table"]) in
      (act_table,
       if Py.truthy eff_table && negb (Py.option_string_eqb eff_table act_table)
       then true else false)
    else (Some "", false) in
  let description0 :=
    if exists_ conf (level ++ ["description"])
    then return_value conf (level ++ ["description"])
    else Some Py.nul in
  {| description := description0;
     members := interfaces_with_vrf conf name0;
     name := name0;
     table := table0;
     table_mod := table_mod0 |}.

(** The body of the loop of lines 111-121. *)
Definition read_gone (conf : Config) (name0 : string) : vrf_gone :=
  {| gone_members := interfaces_with_vrf conf name0; gone_name := name0 |}.

(** [get_config()], lines 58-126.  [vrf_config] starts as a copy of
    [default_config_data].  The first component of the branch is
    [bind_to_all], the second [vrf_add] and the third [vrf_remove] while it is
    still a list of names; lines 110-125 then replace the names by
    dictionaries. *)
Definition get_config (conf : Config) : vrf_config :=
  let vrf_config0 := default_config_data in
  let cfg_base := ["vrf"] in
  let '(bind, adds, names_to_remove) :=
    if negb (exists_ conf cfg_base) then
      (bind_to_all vrf_config0, vrf_add vrf_config0,
       list_effective_nodes conf (cfg_base ++ ["name"]))
    else
      let bind :=
        if exists_ conf ["bind-to-all"] then 1%Z else bind_to_all vrf_config0 in
      let eff_vrf := list_effective_nodes conf (cfg_base ++ ["name"]) in
      let act_vrf := list_nodes conf (cfg_base ++ ["name"]) in
      (bind,
       vrf_add vrf_config0
       ++ map (read_vrf conf cfg_base) (list_nodes conf (cfg_base ++ ["name"])),
       list_diff eff_vrf act_vrf) in
  let tmp := map (read_gone conf) names_to_remove in
  {| bind_to_all := bind;
     deleted := deleted vrf_config0;
     vrf_add := adds;
     vrf_existing := vrf_existing vrf_config0;
     vrf_remove := tmp |}.

(* ================================================================== *)
(** ** Validation *)

Inductive exn : Type :=
| ConfigError (msg : string)
| OSError
| TypeError.

Definition in_use_msg (vrf_name : string) : string :=
  "VRF " ++ Py.dquote ++ vrf_name ++ Py.dquote
  ++ " can not be deleted as it has active members".

Definition table_mod_msg : string :=
  "VRF routing table id modification is not possible".

(** A [for] loop whose body may raise: the first exception ends the loop. *)
Fixpoint for_each_raise {A : Type} (l : list A) (body : A -> exn + unit) : exn + unit :=
  match l with
  | [] => inr tt
  | x :: rest =>
      match body x with
      | inl e => inl e
      | inr _ => for_each_raise rest body
      end
  end.

(** The body of the loop of lines 130-132. *)
Definition verify_remove (vrf : vrf_gone) : exn + unit :=
  if (0 <? List.length (gone_members vrf))%nat
  then inl (ConfigError (in_use_msg (gone_name vrf)))
  else inr tt.

(** The body of the loop of lines 135-137. *)
Definition verify_add (vrf : vrf_inst) : exn + unit :=
  if table_mod vrf then inl (ConfigError table_mod_msg) else inr tt.

(** [verify(vrf_config)], lines 128-141. *)
Definition verify (c : vrf_config) : exn + unit :=
  match for_each_raise (vrf_remove c) verify_remove with
  | inl e => inl e
  | inr _ =>
      match for_each_raise (vrf_add c) verify_add with
      | inl e => inl e
      | inr _ => inr tt
      end
  end.

(** [generate(vrf_config)], lines 143-144. *)
Definition generate (c : vrf_config) : unit := tt.

(* ================================================================== *)
(** ** The system underneath and the effects of [apply] *)

(** What reaches the operating system: a command run by [check_call], given
    as its argument vector, and the write of [data] to a file opened with
    mode ['w']. *)
Inductive event : Type :=
| Exec (argv : list string)
| Write (file data : string).

(** The operating system as the script sees it.  [check_call argv w] is
    [None] when the command exits with status 0 and [Some d] when it raises
    [CalledProcessError], [d] being the text of that exception; the program
    named by [argv] is taken to be installed, so that [check_call] starts it:
    the [OSError] of a program that cannot be started is not part of this
    interface.
    [write_file f data w] opens [f] for writing, writes [data] and closes it;
    its boolean is false when that raises [OSError]. *)
Record OS (world : Type) : Type := {
  isdir : string -> world -> bool;
  check_call : list string -> world -> option string * world;
  write_file : string -> string -> world -> bool * world
}.

Section Applier.

Variable world : Type.
Variable os : OS world.

(** A computation that reads and changes the system, may raise, and leaves
    the events it caused, oldest first. *)
Definition M (A : Type) : Type := world -> (exn + A) * world * list event.

Definition result_of {A : Type} (x : (exn + A) * world * list event) : exn + A :=
  fst (fst x).

Definition world_of {A : Type} (x : (exn + A) * world * list event) : world :=
  snd (fst x).

Definition trace_of {A : Type} (x : (exn + A) * world * list event) : list event :=
  snd x.

Definition ret {A : Type} (a : A) : M A := fun w => (inr a, w, []).

Definition bind {A B : Type} (m : M A) (f : A -> M B) : M B :=
  fun w =>
    match m w with
    | (inl e, w1, t1) => (inl e, w1, t1)
    | (inr a, w1, t1) =>
        match f a w1 with
        | (r, w2, t2) => (r, w2, t1 ++ t2)
        end
    end.

Notation "x <- m ;; k" := (bind m (fun x => k))
  (at level 61, m at next level, right associativity).
Notation "m ;; k" := (bind m (fun _ => k))
  (at level 61, right associativity).

Fixpoint for_each {A : Type} (l : list A) (body : A -> M unit) : M unit :=
  match l with
  | [] => ret tt
  | x :: rest => body x ;; for_each rest body
  end.

(** [os.path.isdir(p)]. *)
Definition path_isdir (p : string) : M bool :=
  fun w => (inr (isdir os p w), w, []).

(** [_cmd(command)], lines 34-42. *)
Definition _cmd (command : string) : M unit :=
  fun w =>
    let argv := Py.split command in
    match check_call os argv w with
    | (None, w1) => (inr tt, w1, [Exec argv])
    | (Some e, w1) =>
        (inl (ConfigError ("Error operationg on VRF: " ++ e)), w1, [Exec argv])
    end.

(** [with open(file, 'w') as f: f.write(data)], lines 171-172.  When [data]
    is [None] the file has been opened, hence emptied, before [f.write]
    raises [TypeError]. *)
Definition open_write (file : string) (data : option string) : M unit :=
  fun w =>
    match data with
    | Some d =>
        match write_file os file d w with
        | (true, w1) => (inr tt, w1, [Write file d])
        | (false, w1) => (inl OSError, w1, [Write file d])
        end
    | None =>
        match write_file os file "" w with
        | (true, w1) => (inl TypeError, w1, [Write file ""])
        | (false, w1) => (inl OSError, w1, [Write file ""])
        end
    end.

(** [f'{vrf_name}'] for an entry of [vrf_remove], a dictionary: Python
    prints [{'members': [...], 'name': '...'}]. *)
Definition format_gone (vrf : vrf_gone) : string :=
  "{'members': " ++ Py.repr_list (gone_members vrf)
  ++ ", 'name': " ++ Py.repr_str (gone_name vrf) ++ "}".

Definition sysctl_tcp (bind_all : Z) : string :=
  "sysctl -wq net.ipv4.tcp_l3mdev_accept=" ++ Py.str_int bind_all.

Definition sysctl_udp (bind_all : Z) : string :=
  "sysctl -wq net.ipv4.udp_l3mdev_accept=" ++ Py.str_int bind_all.

(** Lines 150-152. *)
Definition apply_policy (c : vrf_config) : M unit :=
  let bind_all := bind_to_all c in
  _cmd (sysctl_tcp bind_all) ;;
  _cmd (sysctl_udp bind_all).

(** The body of the loop of lines 154-156.  [vrf_name] is an entry of
    [vrf_remove], which [get_config] has made a dictionary. *)
Definition apply_remove (vrf_name : vrf_gone) : M unit :=
  b <- path_isdir ("/sys/class/net/" ++ format_gone vrf_name) ;;
  if b then _cmd ("ip link delete dev " ++ format_gone vrf_name) else ret tt.

(** The six commands of lines 163-168. *)
Definition create_commands (name0 table0 : string) : list string :=
  [ ("ip link add " ++ name0 ++ " type vrf table " ++ table0)%string;
    ("ip link set dev " ++ name0 ++ " up")%string;
    ("ip -4 rule add oif " ++ name0 ++ " lookup " ++ table0)%string;
    ("ip -4 rule add iif " ++ name0 ++ " lookup " ++ table0)%string;
    ("ip -6 rule add oif " ++ name0 ++ " lookup " ++ table0)%string;
    ("ip -6 rule add iif " ++ name0 ++ " lookup " ++ table0)%string ].

Definition ifalias (name0 : string) : string :=
  "/sys/class/net/" ++ name0 ++ "/ifalias".

(** The body of the loop of lines 158-172. *)
Definition apply_add (vrf : vrf_inst) : M unit :=
  let name0 := name vrf in
  let table0 := Py.format (table vrf) in
  b <- path_isdir ("/sys/class/net/" ++ name0) ;;
  (if negb b then for_each (create_commands name0 table0) _cmd else ret tt) ;;
  open_write (ifalias name0) (description vrf).

(** [apply(vrf_config)], lines 146-174. *)
Definition apply (c : vrf_config) : M unit :=
  apply_policy c ;;
  for_each (vrf_remove c) apply_remove ;;
  for_each (vrf_add c) apply_add.

(** What [f.write] is given to put in the file: the description, and
    nothing when it is [None]. *)
Definition alias_data (data : option string) : string :=
  match data with
  | Some d => d
  | None => ""
  end.

(** The events of the three phases of [apply], for the ordering of its
    effects. *)
Definition policy_events (c : vrf_config) : list event :=
  [ Exec (Py.split (sysctl_tcp (bind_to_all c)));
    Exec (Py.split (sysctl_udp (bind_to_all c))) ].

Definition removal_event (c : vrf_config) (e : event) : Prop :=
  exists vrf, In vrf (vrf_remove c)
              /\ e = Exec (Py.split ("ip link delete dev " ++ format_gone vrf)).

Definition creation_event (vrf : vrf_inst) (e : event) : Prop :=
  exists command,
    In command (create_commands (name vrf) (Py.format (table vrf)))
    /\ e = Exec (Py.split command).

Definition alias_event (vrf : vrf_inst) : event :=
  Write (ifalias (name vrf)) (alias_data (description vrf)).

Definition addition_event (c : vrf_config) (e : event) : Prop :=
  exists vrf, In vrf (vrf_add c) /\ (creation_event vrf e \/ e = alias_event vrf).

(** The outcome of the script: the exit status, with what was printed, or
    the exception that nothing catches. *)
Inductive outcome : Type :=
| Exit0
| Exit1 (printed : string)
| Uncaught (e : exn).

Definition finish (r : exn + unit) : outcome :=
  match r with
  | inr _ => Exit0
  | inl (ConfigError msg) => Exit1 msg
  | inl e => Uncaught e
  end.

(** The main block, lines 176-184, for a given store. *)
Definition main (conf : Config) (w : world) : outcome * world * list event :=
  let c := get_config conf in
  match verify c with
  | inl e => (finish (inl e), w, [])
  | inr _ =>
      let _ := generate c in
      match apply c w with
      | (r, w1, t) => (finish r, w1, t)
      end
  end.

End Applier.

Arguments result_of {world A} x.
Arguments world_of {world A} x.
Arguments trace_of {world A} x.
Arguments main {world} os conf w.
Arguments apply {world} os c w.
Arguments apply_add {world} os vrf w.
Arguments apply_remove {world} os vrf_name w.
Arguments apply_policy {world} os c w.
Arguments for_each {world A} l body w.
Arguments _cmd {world} os command w.
Arguments open_write {world} os file data w.
Arguments path_isdir {world} os p w.

(* ================================================================== *)
(** ** A store and a kernel to run the scenarios on *)

Module Lab.

(** A configuration tree given by its leaves, as [set] commands give them:
    the path of a node and, when it has one, its value. *)
Definition tree := list (path * option string).

Fixpoint is_prefix (p q : path) : bool :=
  match p, q with
  | [], _ => true
  | a :: p1, b :: q1 => String.eqb a b && is_prefix p1 q1
  | _ :: _, [] => false
  end.

Fixpoint child_under (p q : path) : option string :=
  match p, q with
  | [], b :: _ => Some b
  | a :: p1, b :: q1 => if String.eqb a b then child_under p1 q1 else None
  | _, _ => None
  end.

Fixpoint children (p : path) (t : tree) : list string :=
  match t with
  | [] => []
  | (q, _) :: rest =>
      match child_under p q with
      | Some c =>
          if existsb (String.eqb c) (children p rest)
          then children p rest else c :: children p rest
      | None => children p rest
      end
  end.

Fixpoint value_at (p : path) (t : tree) : option string :=
  match t with
  | [] => None
  | (q, v) :: rest =>
      if list_eq_dec string_dec p q then v else value_at p rest
  end.

Definition store (active effective : tree) (interfaces : section) : Config :=
  {| exists_ := fun p => existsb (fun l => is_prefix p (fst l)) active;
     list_nodes := fun p => children p active;
     list_effective_nodes := fun p => children p effective;
     return_value := fun p => value_at p active;
     return_effective_value := fun p => value_at p effective;
     get_config_dict_interfaces := interfaces |}.

(** A kernel that knows its network devices by name.  [ip link add] of a
    complete command creates the device, [ip link delete dev] removes it,
    [ip link add] without a table number fails, any other command succeeds
    and changes nothing; a file can be written when it is the [ifalias] of a
    device. *)
Definition devices := list string.

Definition argv_eqb (a b : list string) : bool :=
  if list_eq_dec string_dec a b then true else false.

Definition kernel_check_call (argv : list string) (w : devices) : option string * devices :=
  match argv with
  | [a0; a1; a2; dev; a4; a5; a6; _] =>
      if argv_eqb [a0; a1; a2; a4; a5; a6] ["ip"; "link"; "add"; "type"; "vrf"; "table"]
      then (None, dev :: w) else (None, w)
  | [a0; a1; a2; dev; a4; a5; a6] =>
      if argv_eqb [a0; a1; a2; a4; a5; a6] ["ip"; "link"; "add"; "type"; "vrf"; "table"]
      then (Some ("Command '" ++ Py.repr_list argv
                  ++ "' returned non-zero exit status 255.")%string, w)
      else (None, w)
  | [a0; a1; a2; a3; dev] =>
      if argv_eqb [a0; a1; a2; a3] ["ip"; "link"; "delete"; "dev"]
      then (None, filter (fun d => negb (String.eqb d dev)) w) else (None, w)
  | _ => (None, w)
  end.

Definition kernel : OS devices :=
  {| isdir := fun p w => existsb (fun dev => String.eqb p ("/sys/class/net/" ++ dev)) w;
     check_call := kernel_check_call;
     write_file := fun f _ w =>
       (existsb (fun dev => String.eqb f ("/sys/class/net/" ++ dev ++ "/ifalias")) w, w) |}.

(** Scenario A: [RED] with table 100 is declared, nothing was before. *)
Definition conf_A : Config :=
  store [(["vrf"; "name"; "RED"; "table"], Some "100")] [] [].

(** Scenarios B and D: the [vrf] node is gone, [BLUE] was effective; in B the
    interface [eth1] still names it. *)
Definition conf_B : Config :=
  store [] [(["vrf"; "name"; "BLUE"; "table"], Some "100")]
    [("ethernet", [("eth0", [("address", "192.0.2.1/24")]);
                   ("eth1", [("vrf", "BLUE")])])].

Definition conf_D : Config :=
  store [] [(["vrf"; "name"; "BLUE"; "table"], Some "100")]
    [("ethernet", [("eth0", [("address", "192.0.2.1/24")])])].

(** Scenario C: [GREEN] is declared with table 200, table 100 is in effect. *)
Definition conf_C : Config :=
  store [(["vrf"; "name"; "GREEN"; "table"], Some "200")]
        [(["vrf"; "name"; "GREEN"; "table"], Some "100")] [].

(** [RED] is declared without a table and without a description. *)
Definition conf_bare : Config :=
  store [(["vrf"; "name"; "RED"], None)] [] [].

(** [RED] is declared, [BLUE] was effective and is no longer declared. *)
Definition conf_swap : Config :=
  store [(["vrf"; "name"; "RED"; "table"], Some "100"); (["bind-to-all"], None)]
        [(["vrf"; "name"; "BLUE"; "table"], Some "200")] [].

(** [RED] is declared without a table, table 100 is in effect. *)
Definition conf_untabled : Config :=
  store [(["vrf"; "name"; "RED"], None)]
        [(["vrf"; "name"; "RED"; "table"], Some "100")] [].

End Lab.


(* ================================================================== *)
(** ** Words of a command line *)

(** Whether every character of a string is an ASCII character (below 128)
    that [str.split] does not take for a separator. *)
Fixpoint all_plain (s : string) : bool :=
  match s with
  | EmptyString => true
  | String c rest =>
      ((nat_of_ascii c <? 128)%nat && negb (Py.isspace c)) && all_plain rest
  end.

(** A string that [str.split] leaves as one word: not empty, made of ASCII
    characters, none of them white space. *)
Definition one_word (s : string) : Prop :=
  s <> "" /\ all_plain s = true.

(* ================================================================== *)
(** ** What an exception of [apply] leaves behind *)

(** The trace [t] ends with the event that raised [e]: a command for which
    [check_call] gave the text that the message of [ConfigError] carries, the
    emptying of a file that was to receive [None] for [TypeError].  Nothing is
    said of [OSError], which more than a failed write can raise. *)
Definition raised_by (world : Type) (os : OS world) (e : exn) (t : list event) : Prop :=
  match e with
  | ConfigError msg =>
      exists before argv d w,
        t = before ++ [Exec argv]
        /\ fst (check_call os argv w) = Some d
        /\ msg = ("Error operationg on VRF: " ++ d)%string
  | OSError => True
  | TypeError =>
      exists before file, t = before ++ [Write file ""]
  end.

(** A [for] loop that went through the whole of its list: every item in
    turn, each from the system that its predecessor left, none raising.  The
    events are those of the items, in the order of the list. *)
Inductive ran_all (world A : Type) (body : A -> M world unit) :
  list A -> world -> list event -> world -> Prop :=
| ran_none (w : world) : ran_all body [] w [] w
| ran_next (x : A) (l : list A) (w w1 w2 : world) (t1 t2 : list event) :
    body x w = (inr tt, w1, t1) ->
    ran_all body l w1 t2 w2 ->
    ran_all body (x :: l) w (t1 ++ t2) w2.

(** A [for] loop that an exception ended: the items before the one that
    raised ran in turn, the items after it were not started. *)
Inductive stopped_at (world A : Type) (body : A -> M world unit) :
  list A -> world -> list event -> exn -> world -> Prop :=
| stopped_here (x : A) (l : list A) (w w1 : world) (t : list event) (e : exn) :
    body x w = (inl e, w1, t) ->
    stopped_at body (x :: l) w t e w1
| stopped_later (x : A) (l : list A) (w w1 w2 : world) (t1 t2 : list event) (e : exn) :
    body x w = (inr tt, w1, t1) ->
    stopped_at body l w1 t2 e w2 ->
    stopped_at body (x :: l) w (t1 ++ t2) e w2.

(** A computation whose exceptions are explained by the end of its trace. *)
Definition explained (world : Type) (os : OS world) (A : Type) (m : M world A) : Prop :=
  forall w e, result_of (m w) = inl e -> raised_by os e (trace_of (m w)).

(* ================================================================== *)
(** ** Facts about strings *)

Lemma length_append (a b : string) :
  String.length (a ++ b) = String.length a + String.length b.
Proof.
  induction a as [| c a IH]; simpl; [reflexivity | now rewrite IH].
Qed.

Lemma append_assoc (a b c : string) : (a ++ (b ++ c) = (a ++ b) ++ c)%string.
Proof.
  induction a as [| x a IH]; simpl; [reflexivity | now rewrite IH].
Qed.

Lemma prefix_append (p s : string) : String.prefix p (p ++ s) = true.
Proof.
  induction p as [| c p IH]; simpl.
  - now destruct s.
  - destruct (ascii_dec c c) as [_ | Hne]; [exact IH | now elim Hne].
Qed.

Lemma is_infix_here (p s : string) :
  String.prefix p s = true -> Py.is_infix p s = true.
Proof.
  intros H. destruct s; simpl in *; rewrite H; reflexivity.
Qed.

Lemma is_infix_append (a p b : string) : Py.is_infix p (a ++ p ++ b) = true.
Proof.
  induction a as [| c a IH].
  - change ("" ++ p ++ b)%string with (p ++ b)%string.
    apply is_infix_here, prefix_append.
  - change (String c a ++ p ++ b)%string with (String c (a ++ p ++ b)).
    simpl. rewrite IH. apply orb_true_r.
Qed.

Lemma contains_char_append (c : ascii) (a b : string) :
  Py.contains_char c (a ++ b) = Py.contains_char c a || Py.contains_char c b.
Proof.
  induction a as [| d a IH]; simpl; [reflexivity |].
  now rewrite IH, orb_assoc.
Qed.

Lemma option_string_eqb_eq (a b : option string) :
  Py.option_string_eqb a b = true <-> a = b.
Proof.
  destruct a as [x |], b as [y |]; simpl; try (split; congruence).
  rewrite String.eqb_eq. split; congruence.
Qed.

Lemma in_use_msg_names (vrf_name : string) :
  Py.is_infix vrf_name (in_use_msg vrf_name) = true.
Proof.
  unfold in_use_msg.
  rewrite (append_assoc "VRF " Py.dquote).
  apply is_infix_append.
Qed.

Lemma in_use_msg_not_table_mod_msg (vrf_name : string) :
  in_use_msg vrf_name <> table_mod_msg.
Proof.
  unfold in_use_msg, table_mod_msg. simpl. intros H.
  injection H as H. discriminate H.
Qed.

(* ================================================================== *)
(** ** Validation *)

Lemma members_test (vrf : vrf_gone) :
  (0 <? List.length (gone_members vrf))%nat = true <-> gone_members vrf <> [].
Proof.
  destruct (gone_members vrf) as [| m ms]; simpl; split.
  - discriminate.
  - intros H. now elim H.
  - discriminate.
  - reflexivity.
Qed.

Lemma verify_remove_passes (l : list vrf_gone) :
  for_each_raise l verify_remove = inr tt <->
  (forall vrf, In vrf l -> gone_members vrf = []).
Proof.
  induction l as [| v l IH]; simpl.
  - split; [intros _ vrf [] | reflexivity].
  - unfold verify_remove at 1.
    destruct (gone_members v) as [| m ms] eqn:Hm; simpl.
    + rewrite IH. split.
      * intros H vrf [<- | Hin]; [exact Hm | now apply H].
      * intros H vrf Hin. apply H. now right.
    + split; [discriminate |].
      intros H. specialize (H v (or_introl eq_refl)). congruence.
Qed.

Lemma verify_remove_raises (l : list vrf_gone) (e : exn) :
  for_each_raise l verify_remove = inl e ->
  exists vrf, In vrf l /\ gone_members vrf <> []
              /\ e = ConfigError (in_use_msg (gone_name vrf)).
Proof.
  induction l as [| v l IH]; simpl; [discriminate |].
  unfold verify_remove at 1.
  destruct (0 <? List.length (gone_members v))%nat eqn:Hm.
  - intros [= <-]. exists v. rewrite <- members_test. auto.
  - intros H. destruct (IH H) as (vrf & Hin & Hne & He).
    exists vrf. auto.
Qed.

Lemma verify_add_passes (l : list vrf_inst) :
  for_each_raise l verify_add = inr tt <->
  (forall vrf, In vrf l -> table_mod vrf = false).
Proof.
  induction l as [| v l IH]; simpl.
  - split; [intros _ vrf [] | reflexivity].
  - unfold verify_add at 1. destruct (table_mod v) eqn:Hm.
    + split; [discriminate |].
      intros H. specialize (H v (or_introl eq_refl)). congruence.
    + rewrite IH. split.
      * intros H vrf [<- | Hin]; [exact Hm | now apply H].
      * intros H vrf Hin. apply H. now right.
Qed.

Lemma verify_add_raises (l : list vrf_inst) (e : exn) :
  for_each_raise l verify_add = inl e ->
  e = ConfigError table_mod_msg /\ exists vrf, In vrf l /\ table_mod vrf = true.
Proof.
  induction l as [| v l IH]; simpl; [discriminate |].
  unfold verify_add at 1. destruct (table_mod v) eqn:Hm.
  - intros [= <-]. split; [reflexivity |]. exists v. auto.
  - intros H. destruct (IH H) as (He & vrf & Hin & Ht).
    split; [exact He |]. exists vrf. auto.
Qed.

Lemma raised_message (A : Type) (a b : string) :
  @inl exn A (ConfigError a) = inl (ConfigError b) -> a = b.
Proof.
  intros H. now injection H.
Qed.

(** The three ways [verify] can end. *)
Lemma verify_cases (c : vrf_config) :
  (verify c = inr tt
   /\ (forall vrf, In vrf (vrf_remove c) -> gone_members vrf = [])
   /\ (forall vrf, In vrf (vrf_add c) -> table_mod vrf = false))
  \/ (exists vrf, In vrf (vrf_remove c) /\ gone_members vrf <> []
                 /\ verify c = inl (ConfigError (in_use_msg (gone_name vrf))))
  \/ (verify c = inl (ConfigError table_mod_msg)
      /\ (forall vrf, In vrf (vrf_remove c) -> gone_members vrf = [])
      /\ exists vrf, In vrf (vrf_add c) /\ table_mod vrf = true).
Proof.
  unfold verify.
  destruct (for_each_raise (vrf_remove c) verify_remove) as [e | []] eqn:Hr.
  - right; left. destruct (verify_remove_raises _ Hr) as (vrf & Hin & Hne & ->).
    exists vrf. auto.
  - rewrite verify_remove_passes in Hr.
    destruct (for_each_raise (vrf_add c) verify_add) as [e | []] eqn:Ha.
    + right; right. destruct (verify_add_raises _ Ha) as (-> & Hex). auto.
    + left. rewrite verify_add_passes in Ha. auto.
Qed.

(** C2: validation raises the error that names a VRF exactly when some entry
    of [vrf_remove] has members; the error then names such an entry, no other
    error of validation does, a plan with such an entry ends the script with
    that message before anything is applied, and the system is the one
    validation was given: untouched when it fails, handed as it is to [apply]
    when it passes. *)
Theorem verify_in_use_iff (c : vrf_config) :
  ((exists n, verify c = inl (ConfigError (in_use_msg n))) <->
   (exists vrf, In vrf (vrf_remove c) /\ gone_members vrf <> []))
  /\ (forall e, verify c = inl e ->
      e = ConfigError table_mod_msg \/
      exists vrf, In vrf (vrf_remove c) /\ gone_members vrf <> []
                  /\ e = ConfigError (in_use_msg (gone_name vrf))
                  /\ Py.is_infix (gone_name vrf) (in_use_msg (gone_name vrf)) = true)
  /\ (forall (world : Type) (os : OS world) (conf : Config) (w : world),
      get_config conf = c ->
      (exists vrf, In vrf (vrf_remove c) /\ gone_members vrf <> []) ->
      exists n, main os conf w = (Exit1 (in_use_msg n), w, []))
  /\ (forall (world : Type) (os : OS world) (conf : Config) (w : world),
      get_config conf = c ->
      verify c = inr tt ->
      main os conf w =
      (finish (fst (fst (apply os c w))), snd (fst (apply os c w)), snd (apply os c w))).
Proof.
  repeat split.
  - intros [n Hn].
    destruct (verify_cases c) as [(H & _) | [(vrf & Hin & Hne & _) | (H & _)]].
    + congruence.
    + exists vrf. auto.
    + rewrite H in Hn. apply raised_message in Hn.
      symmetry in Hn. now apply in_use_msg_not_table_mod_msg in Hn.
  - intros (vrf & Hin & Hne).
    destruct (verify_cases c) as [(_ & H & _) | [(v & _ & _ & H) | (_ & H & _)]].
    + now apply H in Hin.
    + now exists (gone_name v).
    + now apply H in Hin.
  - intros e He.
    destruct (verify_cases c) as [(H & _) | [(vrf & Hin & Hne & H) | (H & _)]].
    + congruence.
    + right. exists vrf. repeat split; auto using in_use_msg_names. congruence.
    + left. congruence.
  - intros world os conf w <- (vrf & Hin & Hne).
    destruct (verify_cases (get_config conf))
      as [(_ & H & _) | [(v & _ & _ & H) | (_ & H & _)]].
    + now apply H in Hin.
    + exists (gone_name v). unfold main. now rewrite H.
    + now apply H in Hin.
  - intros world os conf w <- H. unfold main. rewrite H.
    now destruct (apply os (get_config conf) w) as [[r w1] t].
Qed.

(** The validation of scenario B. *)
Lemma verify_in_use_iff_scenario_B :
  exists n, verify (get_config Lab.conf_B) = inl (ConfigError (in_use_msg n)).
Proof.
  apply (proj1 (verify_in_use_iff (get_config Lab.conf_B))).
  exists {| gone_members := ["eth1"]; gone_name := "BLUE" |}.
  split; [left; reflexivity | discriminate].
Defined.

(** C3, as the specification states it, fails on scenario C: [GREEN] is the
    one entry with a changed table, validation fails, and the message it
    raises does not contain [GREEN]. *)
Lemma table_error_does_not_name_GREEN :
  map name (filter table_mod (vrf_add (get_config Lab.conf_C))) = ["GREEN"]
  /\ exists msg,
       verify (get_config Lab.conf_C) = inl (ConfigError msg)
       /\ Py.is_infix "GREEN" msg = false.
Proof.
  split; [reflexivity |].
  exists table_mod_msg. split; reflexivity.
Qed.

(** C3, amended: when no removal is blocked by members and some declared VRF
    carries the table-change marker, validation fails with the fixed message
    [table_mod_msg], whichever VRF it is. *)
Theorem verify_table_change_message (c : vrf_config) :
  (forall vrf, In vrf (vrf_remove c) -> gone_members vrf = []) ->
  (exists vrf, In vrf (vrf_add c) /\ table_mod vrf = true) ->
  verify c = inl (ConfigError table_mod_msg).
Proof.
  intros Hfree (vrf & Hin & Hmod).
  destruct (verify_cases c) as [(_ & _ & H) | [(v & Hv & Hne & _) | (H & _)]].
  - apply H in Hin. congruence.
  - now apply Hfree in Hv.
  - exact H.
Qed.

(** Scenario C: [GREEN] declared with table 200 while table 100 is in
    effect. *)
Lemma verify_table_change_message_scenario_C :
  verify (get_config Lab.conf_C) = inl (ConfigError table_mod_msg).
Proof.
  apply (verify_table_change_message (get_config Lab.conf_C)).
  - intros vrf [].
  - exists {| description := Some Py.nul; members := []; name := "GREEN";
              table := Some "200"; table_mod := true |}.
    split; [left; reflexivity | reflexivity].
Defined.

(* ================================================================== *)
(** ** State reading *)

Lemma read_vrf_name (conf : Config) (cfg_base : path) (n : string) :
  name (read_vrf conf cfg_base n) = n.
Proof.
  unfold read_vrf.
  now destruct (exists_ conf ((cfg_base ++ ["name"; n]) ++ ["table"])).
Qed.

Lemma read_vrf_description (conf : Config) (cfg_base : path) (n : string) :
  description (read_vrf conf cfg_base n) =
  if exists_ conf ((cfg_base ++ ["name"; n]) ++ ["description"])
  then return_value conf ((cfg_base ++ ["name"; n]) ++ ["description"])
  else Some Py.nul.
Proof.
  unfold read_vrf.
  now destruct (exists_ conf ((cfg_base ++ ["name"; n]) ++ ["table"])).
Qed.

Lemma read_vrf_table (conf : Config) (cfg_base : path) (n : string) :
  table (read_vrf conf cfg_base n) =
  if exists_ conf ((cfg_base ++ ["name"; n]) ++ ["table"])
  then return_value conf ((cfg_base ++ ["name"; n]) ++ ["table"])
  else Some "".
Proof.
  unfold read_vrf.
  now destruct (exists_ conf ((cfg_base ++ ["name"; n]) ++ ["table"])).
Qed.

Lemma read_vrf_table_mod (conf : Config) (cfg_base : path) (n : string) :
  table_mod (read_vrf conf cfg_base n) =
  exists_ conf ((cfg_base ++ ["name"; n]) ++ ["table"])
  && (Py.truthy (return_effective_value conf ((cfg_base ++ ["name"; n]) ++ ["table"]))
      && negb (Py.option_string_eqb
                 (return_effective_value conf ((cfg_base ++ ["name"; n]) ++ ["table"]))
                 (return_value conf ((cfg_base ++ ["name"; n]) ++ ["table"])))).
Proof.
  unfold read_vrf.
  destruct (exists_ conf ((cfg_base ++ ["name"; n]) ++ ["table"])); simpl;
    [| reflexivity].
  now destruct (Py.truthy _ && negb _).
Qed.

(** The entries of [vrf_add] are the declared names, read one by one. *)
Lemma vrf_add_get_config (conf : Config) :
  vrf_add (get_config conf) =
  if exists_ conf ["vrf"]
  then map (read_vrf conf ["vrf"]) (list_nodes conf ["vrf"; "name"])
  else [].
Proof.
  unfold get_config. now destruct (exists_ conf ["vrf"]).
Qed.

(** The entries of [vrf_remove] are the effective names that are no longer
    declared, or all effective names when the [vrf] node is gone. *)
Lemma vrf_remove_get_config (conf : Config) :
  vrf_remove (get_config conf) =
  map (read_gone conf)
    (if exists_ conf ["vrf"]
     then list_diff (list_effective_nodes conf ["vrf"; "name"])
                    (list_nodes conf ["vrf"; "name"])
     else list_effective_nodes conf ["vrf"; "name"]).
Proof.
  unfold get_config. now destruct (exists_ conf ["vrf"]).
Qed.

Lemma in_vrf_add (conf : Config) (vrf : vrf_inst) :
  In vrf (vrf_add (get_config conf)) ->
  exists_ conf ["vrf"] = true
  /\ exists n, In n (list_nodes conf ["vrf"; "name"])
               /\ vrf = read_vrf conf ["vrf"] n.
Proof.
  rewrite vrf_add_get_config.
  destruct (exists_ conf ["vrf"]); [| intros []].
  rewrite in_map_iff. intros (n & <- & Hn).
  split; [reflexivity |]. exists n. auto.
Qed.

Lemma in_list_diff (item : string) (first second : list string) :
  In item (list_diff first second) <-> In item first /\ ~ In item second.
Proof.
  unfold list_diff. rewrite filter_In, negb_true_iff.
  split; intros [Hf Hs]; split; auto.
  - intros Hin. apply not_true_iff_false in Hs. apply Hs.
    apply existsb_exists. exists item. split; [exact Hin | apply String.eqb_refl].
  - apply not_true_iff_false. rewrite existsb_exists.
    intros (x & Hx & Heq). apply String.eqb_eq in Heq. now subst x.
Qed.

(** C4, as the specification states it, fails when the table of a declared
    VRF has been removed: [RED] is declared without a table, table 100 is in
    effect and differs from the declared (empty) table, and the marker is not
    set. *)
Lemma table_mod_misses_removed_table :
  let vrf := read_vrf Lab.conf_untabled ["vrf"] "RED" in
  let eff_table :=
    return_effective_value Lab.conf_untabled ["vrf"; "name"; "RED"; "table"] in
  In vrf (vrf_add (get_config Lab.conf_untabled))
  /\ ~ (table_mod vrf = true <->
        exists t, eff_table = Some t /\ t <> "" /\ Some t <> table vrf).
Proof.
  split; [left; reflexivity |].
  intros [_ H].
  assert (Hmod : table_mod (read_vrf Lab.conf_untabled ["vrf"] "RED") = true).
  { apply H. exists "100". repeat split; discriminate. }
  discriminate Hmod.
Qed.

(** C4, amended: for every declared VRF the marker is set exactly when the
    [table] node is declared, a table is in effect, it is not empty, and it
    differs from the declared table. *)
Theorem table_mod_iff (conf : Config) (vrf : vrf_inst) :
  In vrf (vrf_add (get_config conf)) ->
  let table_path := ["vrf"; "name"; name vrf; "table"] in
  let eff_table := return_effective_value conf table_path in
  table_mod vrf = true <->
  exists_ conf table_path = true
  /\ exists t, eff_table = Some t /\ t <> "" /\ Some t <> table vrf.
Proof.
  intros Hin.
  destruct (in_vrf_add _ _ Hin) as (_ & n & _ & ->).
  rewrite read_vrf_name, read_vrf_table_mod, read_vrf_table.
  change ((["vrf"] ++ ["name"; n]) ++ ["table"]) with ["vrf"; "name"; n; "table"].
  intros table_path eff_table. subst eff_table table_path.
  set (p := ["vrf"; "name"; n; "table"]).
  destruct (exists_ conf p); simpl.
  - destruct (return_effective_value conf p) as [[| ch t] |]; simpl.
    + split; [discriminate | intros (_ & t & [= <-] & Hne & _); now elim Hne].
    + rewrite negb_true_iff. split.
      * intros Hneq. split; [reflexivity |].
        exists (String ch t). repeat split; [discriminate |].
        intros Heq. apply not_true_iff_false in Hneq. apply Hneq.
        change (Py.option_string_eqb (Some (String ch t)) (return_value conf p) = true).
        now apply option_string_eqb_eq.
      * intros (_ & t' & [= <-] & _ & Hne).
        apply not_true_iff_false. intros Heq. apply Hne.
        change (Py.option_string_eqb (Some (String ch t)) (return_value conf p) = true)
          in Heq.
        now apply option_string_eqb_eq in Heq.
    + split; [discriminate | intros (_ & t & [=] & _)].
  - split; [discriminate | intros ([=] & _)].
Qed.

(** Scenario C read back: [GREEN] carries the marker. *)
Lemma table_mod_iff_scenario_C :
  table_mod (read_vrf Lab.conf_C ["vrf"] "GREEN") = true <->
  exists_ Lab.conf_C ["vrf"; "name"; "GREEN"; "table"] = true
  /\ exists t,
       return_effective_value Lab.conf_C ["vrf"; "name"; "GREEN"; "table"] = Some t
       /\ t <> "" /\ Some t <> table (read_vrf Lab.conf_C ["vrf"] "GREEN").
Proof.
  apply (table_mod_iff Lab.conf_C (read_vrf Lab.conf_C ["vrf"] "GREEN")).
  left. reflexivity.
Defined.

(** C5: in every configuration that [get_config] returns, no name is both
    in [vrf_add] and in [vrf_remove]. *)
Theorem add_remove_disjoint (conf : Config) (vrf : vrf_inst) (gone : vrf_gone) :
  In vrf (vrf_add (get_config conf)) ->
  In gone (vrf_remove (get_config conf)) ->
  name vrf <> gone_name gone.
Proof.
  intros Hadd Hgone.
  destruct (in_vrf_add _ _ Hadd) as (Hbase & declared & Hdeclared & ->).
  rewrite vrf_remove_get_config, Hbase, in_map_iff in Hgone.
  destruct Hgone as (n & <- & Hn). simpl.
  rewrite read_vrf_name.
  apply in_list_diff in Hn. destruct Hn as [_ Hn].
  intros Heq. apply Hn. now rewrite <- Heq.
Qed.

(** [RED] declared and [BLUE] to remove, in one configuration. *)
Lemma add_remove_disjoint_swap : "RED" <> "BLUE".
Proof.
  apply (add_remove_disjoint Lab.conf_swap
           {| description := Some Py.nul; members := []; name := "RED";
              table := Some "100"; table_mod := false |}
           {| gone_members := []; gone_name := "BLUE" |}).
  - left. reflexivity.
  - left. reflexivity.
Defined.

(* ================================================================== *)
(** ** Running computations *)

Section Running.

Variable world : Type.
Variable os : OS world.

Lemma bind_run (A B : Type) (m : M world A) (f : A -> M world B) (w : world) :
  bind m f w =
  match result_of (m w) with
  | inl e => (inl e, world_of (m w), trace_of (m w))
  | inr a =>
      (result_of (f a (world_of (m w))),
       world_of (f a (world_of (m w))),
       trace_of (m w) ++ trace_of (f a (world_of (m w))))
  end.
Proof.
  unfold bind, result_of, world_of, trace_of.
  destruct (m w) as [[[e | a] w1] t1]; simpl; [reflexivity |].
  now destruct (f a w1) as [[r w2] t2].
Qed.

Lemma bind_returned (A B : Type) (m : M world A) (f : A -> M world B)
      (w : world) (a : A) :
  result_of (m w) = inr a ->
  result_of (bind m f w) = result_of (f a (world_of (m w)))
  /\ trace_of (bind m f w) = trace_of (m w) ++ trace_of (f a (world_of (m w))).
Proof.
  intros H. rewrite bind_run, H. split; reflexivity.
Qed.

Lemma bind_raised (A B : Type) (m : M world A) (f : A -> M world B)
      (w : world) (e : exn) :
  result_of (m w) = inl e ->
  result_of (bind m f w) = inl e /\ trace_of (bind m f w) = trace_of (m w).
Proof.
  intros H. rewrite bind_run, H. split; reflexivity.
Qed.

Lemma bind_isdir (B : Type) (p : string) (f : bool -> M world B) (w : world) :
  bind (path_isdir os p) f w = f (isdir os p w) w.
Proof.
  unfold bind, path_isdir.
  now destruct (f (isdir os p w) w) as [[r w2] t2].
Qed.

Lemma bind_ret (A B : Type) (a : A) (f : A -> M world B) (w : world) :
  bind (ret a) f w = f a w.
Proof.
  unfold bind, ret.
  now destruct (f a w) as [[r w2] t2].
Qed.

Lemma cmd_trace (command : string) (w : world) :
  trace_of (_cmd os command w) = [Exec (Py.split command)].
Proof.
  unfold _cmd, trace_of.
  now destruct (check_call os (Py.split command) w) as [[d |] w1].
Qed.

Lemma cmd_result (command : string) (w : world) :
  result_of (_cmd os command w) = inr tt
  \/ exists msg, result_of (_cmd os command w) = inl (ConfigError msg).
Proof.
  unfold _cmd, result_of.
  destruct (check_call os (Py.split command) w) as [[d |] w1]; simpl; eauto.
Qed.

Lemma open_write_trace (file : string) (data : option string) (w : world) :
  trace_of (open_write os file data w) = [Write file (alias_data data)].
Proof.
  unfold open_write, trace_of.
  destruct data as [d |]; simpl.
  - now destruct (write_file os file d w) as [[|] w1].
  - now destruct (write_file os file "" w) as [[|] w1].
Qed.

(** A list of commands run in turn: the first, if any, is always issued,
    every event is one of the commands, and only [ConfigError] ends it
    early. *)
Lemma commands_run (l : list string) (w : world) :
  Forall (fun e => exists command, In command l /\ e = Exec (Py.split command))
         (trace_of (for_each l (_cmd os) w))
  /\ (result_of (for_each l (_cmd os) w) = inr tt
      \/ exists msg, result_of (for_each l (_cmd os) w) = inl (ConfigError msg))
  /\ (forall command rest, l = command :: rest ->
      exists t, trace_of (for_each l (_cmd os) w) = Exec (Py.split command) :: t).
Proof.
  revert w. induction l as [| command l IH]; intros w.
  - repeat split; [constructor | now left | discriminate].
  - simpl for_each. rewrite bind_run.
    pose proof (cmd_trace command w) as Ht.
    destruct (cmd_result command w) as [Hr | [msg Hr]]; rewrite Hr.
    + destruct (IH (world_of (_cmd os command w))) as (Hall & Hres & _).
      unfold result_of at 1 2, trace_of at 1 3. simpl. rewrite Ht.
      repeat split.
      * constructor; [exists command; split; [now left | reflexivity] |].
        eapply Forall_impl; [| exact Hall].
        intros e (cmd' & Hin & He). exists cmd'. split; [now right | exact He].
      * exact Hres.
      * intros command' rest [= <- _]. eexists. reflexivity.
    + unfold result_of at 1 2, trace_of at 1 3. simpl. rewrite Ht.
      repeat split.
      * constructor; [| constructor].
        exists command. split; [now left | reflexivity].
      * right. now exists msg.
      * intros command' rest [= <- _]. eexists. reflexivity.
Qed.

End Running.

(* ================================================================== *)
(** ** The phases of [apply] *)

Section Phases.

Variable world : Type.
Variable os : OS world.

(** The policy phase issues the TCP tunable, then the UDP tunable unless
    the first command failed. *)
Lemma policy_run (c : vrf_config) (w : world) :
  trace_of (apply_policy os c w) = policy_events c
  \/ (trace_of (apply_policy os c w) = [Exec (Py.split (sysctl_tcp (bind_to_all c)))]
      /\ exists msg, result_of (apply_policy os c w) = inl (ConfigError msg)).
Proof.
  unfold apply_policy. rewrite bind_run.
  pose proof (cmd_trace os (sysctl_tcp (bind_to_all c)) w) as Ht.
  destruct (cmd_result os (sysctl_tcp (bind_to_all c)) w) as [Hr | [msg Hr]];
    rewrite Hr.
  - left. unfold trace_of at 1. simpl. now rewrite Ht, cmd_trace.
  - right. unfold trace_of at 1, result_of at 1. simpl. split; [exact Ht | now exists msg].
Qed.

Lemma policy_result (c : vrf_config) (w : world) :
  result_of (apply_policy os c w) = inr tt ->
  trace_of (apply_policy os c w) = policy_events c.
Proof.
  intros Hr. destruct (policy_run c w) as [H | (_ & msg & H)]; [exact H |].
  congruence.
Qed.

(** One removal: nothing when the probed path is no directory, the deletion
    command otherwise. *)
Lemma remove_run (vrf : vrf_gone) (w : world) :
  (isdir os ("/sys/class/net/" ++ format_gone vrf) w = false
   /\ apply_remove os vrf w = (inr tt, w, []))
  \/ (isdir os ("/sys/class/net/" ++ format_gone vrf) w = true
      /\ trace_of (apply_remove os vrf w)
         = [Exec (Py.split ("ip link delete dev " ++ format_gone vrf))]).
Proof.
  unfold apply_remove. rewrite bind_isdir.
  destruct (isdir os ("/sys/class/net/" ++ format_gone vrf) w).
  - right. split; [reflexivity |]. apply cmd_trace.
  - left. split; reflexivity.
Qed.

Lemma removals_run (l : list vrf_gone) (w : world) :
  Forall (fun e => exists vrf, In vrf l
                     /\ e = Exec (Py.split ("ip link delete dev " ++ format_gone vrf)))
         (trace_of (for_each l (apply_remove os) w)).
Proof.
  revert w. induction l as [| vrf l IH]; intros w; [constructor |].
  simpl for_each. rewrite bind_run.
  assert (Hhead : Forall (fun e => exists v, In v (vrf :: l)
                     /\ e = Exec (Py.split ("ip link delete dev " ++ format_gone v)))
                    (trace_of (apply_remove os vrf w))).
  { destruct (remove_run vrf w) as [(_ & H) | (_ & H)]; rewrite H.
    - constructor.
    - constructor; [| constructor]. exists vrf. split; [now left | reflexivity]. }
  destruct (result_of (apply_remove os vrf w)) as [e | []].
  - exact Hhead.
  - unfold trace_of at 1. simpl. apply Forall_app. split; [exact Hhead |].
    eapply Forall_impl; [| apply IH].
    intros e (v & Hin & He). exists v. split; [now right | exact He].
Qed.

(** One addition: the creation commands when the device is missing, then
    the alias unless a creation command failed. *)
Lemma add_run (vrf : vrf_inst) (w : world) :
  exists created,
    Forall (creation_event vrf) created
    /\ (isdir os ("/sys/class/net/" ++ name vrf) w = true -> created = [])
    /\ (isdir os ("/sys/class/net/" ++ name vrf) w = false ->
        exists t, created =
                  Exec (Py.split ("ip link add " ++ name vrf ++ " type vrf table "
                                  ++ Py.format (table vrf))) :: t)
    /\ (trace_of (apply_add os vrf w) = created ++ [alias_event vrf]
        \/ (trace_of (apply_add os vrf w) = created
            /\ exists msg, result_of (apply_add os vrf w) = inl (ConfigError msg))).
Proof.
  unfold apply_add. cbv zeta. rewrite bind_isdir.
  destruct (isdir os ("/sys/class/net/" ++ name vrf) w) eqn:Hdir; cbn [negb].
  - exists []. repeat split; [constructor | discriminate |].
    left. rewrite bind_ret. apply open_write_trace.
  - rewrite bind_run.
    destruct (commands_run os
                (create_commands (name vrf) (Py.format (table vrf))) w)
      as (Hall & Hres & Hfirst).
    exists (trace_of
              (for_each (create_commands (name vrf) (Py.format (table vrf)))
                 (_cmd os) w)).
    repeat split.
    + exact Hall.
    + discriminate.
    + intros _. exact (Hfirst _ _ eq_refl).
    + destruct Hres as [Hr | [msg Hr]]; rewrite Hr.
      * left. unfold trace_of at 1. cbn [snd]. now rewrite open_write_trace.
      * right. unfold trace_of at 1, result_of at 1. cbn [fst snd].
        split; [reflexivity | now exists msg].
Qed.

Lemma additions_run (l : list vrf_inst) (w : world) :
  Forall (fun e => exists vrf, In vrf l
                     /\ (creation_event vrf e \/ e = alias_event vrf))
         (trace_of (for_each l (apply_add os) w)).
Proof.
  revert w. induction l as [| vrf l IH]; intros w; [constructor |].
  simpl for_each. rewrite bind_run.
  assert (Hhead : Forall (fun e => exists v, In v (vrf :: l)
                     /\ (creation_event v e \/ e = alias_event v))
                    (trace_of (apply_add os vrf w))).
  { destruct (add_run vrf w) as (created & Hall & _ & _ & Hshape).
    assert (Hcreated : Forall (fun e => exists v, In v (vrf :: l)
                         /\ (creation_event v e \/ e = alias_event v)) created).
    { eapply Forall_impl; [| exact Hall].
      intros e He. exists vrf. split; [now left | now left]. }
    destruct Hshape as [-> | (-> & _)]; [| exact Hcreated].
    apply Forall_app. split; [exact Hcreated |].
    constructor; [| constructor]. exists vrf. split; [now left | now right]. }
  destruct (result_of (apply_add os vrf w)) as [e | []].
  - exact Hhead.
  - unfold trace_of at 1. simpl. apply Forall_app. split; [exact Hhead |].
    eapply Forall_impl; [| apply IH].
    intros e (v & Hin & He). exists v. split; [now right | exact He].
Qed.

End Phases.

(* ================================================================== *)
(** ** Removals *)

Lemma format_gone_has_space (vrf : vrf_gone) (prefix : string) :
  Py.contains_char " " (prefix ++ format_gone vrf) = true.
Proof.
  unfold format_gone.
  rewrite contains_char_append, (contains_char_append _ "{'members': ").
  apply orb_true_r.
Qed.

(** X10: the path that a removal probes is never the path of the device: it
    holds a printed dictionary, with spaces, where the name was meant.  On a
    system whose directories have no space in their path, the removal phase
    does nothing at all: no event, the system as it was, a normal end. *)
Lemma removals_never_delete (world : Type) (os : OS world)
      (l : list vrf_gone) (w : world) :
  (forall p, isdir os p w = true -> Py.contains_char " " p = false) ->
  for_each l (apply_remove os) w = (inr tt, w, []).
Proof.
  intros Hdirs. induction l as [| vrf l IH]; [reflexivity |].
  simpl for_each. unfold bind.
  destruct (remove_run os vrf w) as [(_ & ->) | (Hdir & _)].
  - now rewrite IH.
  - apply Hdirs in Hdir. now rewrite format_gone_has_space in Hdir.
Qed.

(** C1, at its scenario D: [BLUE] is the one removal candidate, it has no
    member, its device exists, and [apply] ends normally having issued the two
    policy commands only; the device is still there. *)
Theorem scenario_D_device_survives :
  vrf_remove (get_config Lab.conf_D) = [{| gone_members := []; gone_name := "BLUE" |}]
  /\ verify (get_config Lab.conf_D) = inr tt
  /\ isdir Lab.kernel "/sys/class/net/BLUE" ["BLUE"] = true
  /\ apply Lab.kernel (get_config Lab.conf_D) ["BLUE"] =
     (inr tt, ["BLUE"],
      [Exec ["sysctl"; "-wq"; "net.ipv4.tcp_l3mdev_accept=0"];
       Exec ["sysctl"; "-wq"; "net.ipv4.udp_l3mdev_accept=0"]])
  /\ apply_remove Lab.kernel {| gone_members := []; gone_name := "BLUE" |} ["BLUE"] =
     (inr tt, ["BLUE"], []).
Proof.
  repeat split.
Qed.

(* ================================================================== *)
(** ** Ordering *)

(** The trace of [apply], phase by phase. *)
Lemma apply_phases (world : Type) (os : OS world) (c : vrf_config) (w : world) :
  exists policy removals additions,
    trace_of (apply os c w) = policy ++ removals ++ additions
    /\ (policy = policy_events c
        \/ (policy = [Exec (Py.split (sysctl_tcp (bind_to_all c)))]
            /\ removals = [] /\ additions = []
            /\ exists msg, result_of (apply os c w) = inl (ConfigError msg)))
    /\ Forall (removal_event c) removals
    /\ Forall (addition_event c) additions.
Proof.
  unfold apply. rewrite bind_run.
  destruct (result_of (apply_policy os c w)) as [e | []] eqn:Hpolicy.
  - exists (trace_of (apply_policy os c w)), [], [].
    unfold trace_of at 1, result_of at 1. cbn [fst snd].
    rewrite app_nil_r.
    split; [reflexivity |]. split; [| split; constructor].
    destruct (policy_run os c w) as [H | (H & msg & Hmsg)]; [now left |].
    right. repeat split; [exact H |]. exists msg. congruence.
  - rewrite bind_run.
    set (w1 := world_of (apply_policy os c w)).
    exists (trace_of (apply_policy os c w)),
           (trace_of (for_each (vrf_remove c) (apply_remove os) w1)).
    destruct (result_of (for_each (vrf_remove c) (apply_remove os) w1))
      as [e | []].
    + exists []. unfold trace_of at 1. cbn [fst snd].
      rewrite app_nil_r.
      split; [reflexivity |]. split; [| split].
      * left. now apply policy_result.
      * apply removals_run.
      * constructor.
    + eexists. unfold trace_of at 1. cbn [fst snd].
      split; [reflexivity |]. split; [| split].
      * left. now apply policy_result.
      * apply removals_run.
      * apply additions_run.
Qed.

(** A loop either goes through its whole list or is stopped by the first
    item that raises. *)
Lemma for_each_run (world A : Type) (body : A -> M world unit)
      (l : list A) (w : world) :
  match for_each l body w with
  | (inr _, w1, t) => ran_all body l w t w1
  | (inl e, w1, t) => stopped_at body l w t e w1
  end.
Proof.
  revert w. induction l as [| x l IH]; intros w.
  - cbn. constructor.
  - simpl for_each. unfold bind.
    destruct (body x w) as [[[e | []] w1] t1] eqn:Hbody.
    + now apply stopped_here.
    + specialize (IH w1).
      destruct (for_each l body w1) as [[[e | []] w2] t2].
      * now apply stopped_later with (w1 := w1).
      * now apply ran_next with (w1 := w1).
Qed.

(** The policy phase returns having issued both commands, or raises on the
    first or on the second. *)
Lemma policy_outcome (world : Type) (os : OS world) (c : vrf_config) (w : world) :
  (exists w1, apply_policy os c w = (inr tt, w1, policy_events c))
  \/ (exists msg w1 t,
        apply_policy os c w = (inl (ConfigError msg), w1, t)
        /\ (t = [Exec (Py.split (sysctl_tcp (bind_to_all c)))]
            \/ t = policy_events c)).
Proof.
  unfold apply_policy, policy_events, bind, _cmd. cbv zeta.
  destruct (check_call os (Py.split (sysctl_tcp (bind_to_all c))) w)
    as [[d |] w1].
  - right. do 3 eexists. split; [reflexivity | now left].
  - destruct (check_call os (Py.split (sysctl_udp (bind_to_all c))) w1)
      as [[d |] w2].
    + right. do 3 eexists. split; [reflexivity | now right].
    + left. eexists. reflexivity.
Qed.

(** What the items of a removal loop, and of an addition loop, that went
    through its list have left in the trace: one piece per item, in the order
    of the list. *)
Lemma removals_pieces (world : Type) (os : OS world) (l : list vrf_gone)
      (w w1 : world) (t : list event) :
  ran_all (apply_remove os) l w t w1 ->
  exists pieces,
    t = List.concat pieces
    /\ Forall2 (fun vrf piece =>
                  piece = []
                  \/ piece = [Exec (Py.split ("ip link delete dev " ++ format_gone vrf))])
               l pieces.
Proof.
  induction 1 as [w | vrf l w w1 w2 t1 t2 Hbody _ (pieces & -> & Hall)].
  - exists []. split; [reflexivity | constructor].
  - exists (t1 :: pieces). split; [reflexivity |].
    constructor; [| exact Hall].
    destruct (remove_run os vrf w) as [(_ & H) | (_ & H)].
    + left. rewrite Hbody in H. now injection H.
    + right. rewrite Hbody in H. exact H.
Qed.

Lemma additions_pieces (world : Type) (os : OS world) (l : list vrf_inst)
      (w w1 : world) (t : list event) :
  ran_all (apply_add os) l w t w1 ->
  exists pieces,
    t = List.concat pieces
    /\ Forall2 (fun vrf piece =>
                  exists created,
                    Forall (creation_event vrf) created
                    /\ piece = created ++ [alias_event vrf])
               l pieces.
Proof.
  induction 1 as [w | vrf l w w1 w2 t1 t2 Hbody _ (pieces & -> & Hall)].
  - exists []. split; [reflexivity | constructor].
  - exists (t1 :: pieces). split; [reflexivity |].
    constructor; [| exact Hall].
    destruct (add_run os vrf w) as (created & Hcreated & _ & _ & Hshape).
    exists created. split; [exact Hcreated |].
    rewrite Hbody in Hshape. unfold trace_of, result_of in Hshape.
    cbn [fst snd] in Hshape.
    destruct Hshape as [H | (_ & msg & H)]; [exact H | discriminate H].
Qed.

(** C7: the order of the effects of [apply].  When [apply] returns, the
    policy phase has issued the TCP tunable then the UDP tunable, the removal
    loop has then gone through the whole of [vrf_remove] and the addition loop
    through the whole of [vrf_add], item by item in the order of the lists,
    and the trace is the three in that order: every removal leaves nothing or
    its deletion command, every addition its creation commands, if any, and
    its alias.  When [apply] raises, it stopped in the policy phase, or at an
    item of the removal loop after the whole policy phase, or at an item of
    the addition loop after the whole policy phase and the whole removal loop.
    In every case the events are policy events, then removal events, then
    addition events; the policy phase is the same whatever [vrf_add] and
    [vrf_remove] hold, and for a plan read by [get_config] the value written is
    1 when [bind-to-all] is set and 0 otherwise. *)
Theorem apply_order (world : Type) (os : OS world) (c : vrf_config) (w : world) :
  (result_of (apply os c w) = inr tt ->
   exists w1 w2 w3 removals additions,
     apply_policy os c w = (inr tt, w1, policy_events c)
     /\ ran_all (apply_remove os) (vrf_remove c) w1 removals w2
     /\ ran_all (apply_add os) (vrf_add c) w2 additions w3
     /\ apply os c w = (inr tt, w3, policy_events c ++ removals ++ additions)
     /\ (exists pieces,
           removals = List.concat pieces
           /\ Forall2 (fun vrf piece =>
                         piece = []
                         \/ piece = [Exec (Py.split ("ip link delete dev "
                                                     ++ format_gone vrf))])
                      (vrf_remove c) pieces)
     /\ (exists pieces,
           additions = List.concat pieces
           /\ Forall2 (fun vrf piece =>
                         exists created,
                           Forall (creation_event vrf) created
                           /\ piece = created ++ [alias_event vrf])
                      (vrf_add c) pieces))
  /\ (forall e,
        result_of (apply os c w) = inl e ->
        (exists w1 t,
           apply_policy os c w = (inl e, w1, t)
           /\ (t = [Exec (Py.split (sysctl_tcp (bind_to_all c)))]
               \/ t = policy_events c)
           /\ apply os c w = (inl e, w1, t))
        \/ (exists w1 w2 t,
              apply_policy os c w = (inr tt, w1, policy_events c)
              /\ stopped_at (apply_remove os) (vrf_remove c) w1 t e w2
              /\ apply os c w = (inl e, w2, policy_events c ++ t))
        \/ (exists w1 w2 w3 removals t,
              apply_policy os c w = (inr tt, w1, policy_events c)
              /\ ran_all (apply_remove os) (vrf_remove c) w1 removals w2
              /\ stopped_at (apply_add os) (vrf_add c) w2 t e w3
              /\ apply os c w = (inl e, w3, policy_events c ++ removals ++ t)))
  /\ (exists policy removals additions,
        trace_of (apply os c w) = policy ++ removals ++ additions
        /\ (policy = policy_events c
            \/ (policy = [Exec (Py.split (sysctl_tcp (bind_to_all c)))]
                /\ removals = [] /\ additions = []
                /\ exists msg, result_of (apply os c w) = inl (ConfigError msg)))
        /\ Forall (removal_event c) removals
        /\ Forall (addition_event c) additions)
  /\ (forall conf, c = get_config conf ->
      policy_events c =
      if exists_ conf ["vrf"] && exists_ conf ["bind-to-all"]
      then [Exec ["sysctl"; "-wq"; "net.ipv4.tcp_l3mdev_accept=1"];
            Exec ["sysctl"; "-wq"; "net.ipv4.udp_l3mdev_accept=1"]]
      else [Exec ["sysctl"; "-wq"; "net.ipv4.tcp_l3mdev_accept=0"];
            Exec ["sysctl"; "-wq"; "net.ipv4.udp_l3mdev_accept=0"]]).
Proof.
  assert (Hrun :
    match apply os c w with
    | (inr _, w3, t) =>
        exists w1 w2 removals additions,
          apply_policy os c w = (inr tt, w1, policy_events c)
          /\ ran_all (apply_remove os) (vrf_remove c) w1 removals w2
          /\ ran_all (apply_add os) (vrf_add c) w2 additions w3
          /\ t = policy_events c ++ removals ++ additions
    | (inl e, w3, t) =>
        (exists t0,
           apply_policy os c w = (inl e, w3, t0)
           /\ (t0 = [Exec (Py.split (sysctl_tcp (bind_to_all c)))]
               \/ t0 = policy_events c)
           /\ t = t0)
        \/ (exists w1 t0,
              apply_policy os c w = (inr tt, w1, policy_events c)
              /\ stopped_at (apply_remove os) (vrf_remove c) w1 t0 e w3
              /\ t = policy_events c ++ t0)
        \/ (exists w1 w2 removals t0,
              apply_policy os c w = (inr tt, w1, policy_events c)
              /\ ran_all (apply_remove os) (vrf_remove c) w1 removals w2
              /\ stopped_at (apply_add os) (vrf_add c) w2 t0 e w3
              /\ t = policy_events c ++ removals ++ t0)
    end).
  { unfold apply. unfold bind at 1.
    destruct (policy_outcome os c w) as [(w1 & Hp) | (msg & w1 & t0 & Hp & Ht0)];
      rewrite Hp.
    - unfold bind.
      pose proof (for_each_run (apply_remove os) (vrf_remove c) w1) as Hr.
      destruct (for_each (vrf_remove c) (apply_remove os) w1)
        as [[[e | []] w2] tr].
      + right; left. exists w1, tr. auto.
      + pose proof (for_each_run (apply_add os) (vrf_add c) w2) as Ha.
        destruct (for_each (vrf_add c) (apply_add os) w2)
          as [[[e | []] w3] ta].
        * right; right. exists w1, w2, tr, ta. auto.
        * exists w1, w2, tr, ta. auto.
    - left. exists t0. auto. }
  split; [| split; [| split]].
  - intros Hok. unfold result_of in Hok.
    destruct (apply os c w) as [[[e | []] w3] t]; [discriminate Hok |].
    destruct Hrun as (w1 & w2 & removals & additions & Hp & Hr & Ha & ->).
    exists w1, w2, w3, removals, additions.
    repeat split; auto.
    + exact (removals_pieces Hr).
    + exact (additions_pieces Ha).
  - intros e He. unfold result_of in He.
    destruct (apply os c w) as [[[e0 | []] w3] t]; [| discriminate He].
    injection He as ->.
    destruct Hrun as [(t0 & Hp & Ht0 & ->)
                     | [(w1 & t0 & Hp & Hs & ->)
                       | (w1 & w2 & removals & t0 & Hp & Hr & Hs & ->)]].
    + left. exists w3, t0. auto.
    + right; left. exists w1, w3, t0. auto.
    + right; right. exists w1, w2, w3, removals, t0. auto.
  - apply apply_phases.
  - intros conf ->. unfold policy_events, get_config.
    destruct (exists_ conf ["vrf"]); cbn [negb andb]; [| reflexivity].
    now destruct (exists_ conf ["bind-to-all"]).
Qed.

(** Scenario A on a system without the device: the policy phase, no
    removal, and the addition of [RED]. *)
Lemma apply_order_scenario_A :
  exists w1 w2 w3 removals additions,
    apply_policy Lab.kernel (get_config Lab.conf_A) [] =
    (inr tt, w1, policy_events (get_config Lab.conf_A))
    /\ ran_all (apply_remove Lab.kernel) (vrf_remove (get_config Lab.conf_A))
               w1 removals w2
    /\ ran_all (apply_add Lab.kernel) (vrf_add (get_config Lab.conf_A))
               w2 additions w3
    /\ apply Lab.kernel (get_config Lab.conf_A) [] =
       (inr tt, w3,
        policy_events (get_config Lab.conf_A) ++ removals ++ additions)
    /\ (exists pieces,
          removals = List.concat pieces
          /\ Forall2 (fun vrf piece =>
                        piece = []
                        \/ piece = [Exec (Py.split ("ip link delete dev "
                                                    ++ format_gone vrf))])
                     (vrf_remove (get_config Lab.conf_A)) pieces)
    /\ (exists pieces,
          additions = List.concat pieces
          /\ Forall2 (fun vrf piece =>
                        exists created,
                          Forall (creation_event vrf) created
                          /\ piece = created ++ [alias_event vrf])
                     (vrf_add (get_config Lab.conf_A)) pieces).
Proof.
  apply (proj1 (apply_order Lab.kernel (get_config Lab.conf_A) [])).
  reflexivity.
Defined.

(** C9: when the [vrf] node is absent, [get_config] returns [bind_to_all]
    0, no addition, and the effective names as removals; [apply] then begins
    with the TCP tunable set to 0 and, unless that command fails, goes on with
    the UDP tunable set to 0. *)
Theorem vrf_node_absent (conf : Config) :
  exists_ conf ["vrf"] = false ->
  let c := get_config conf in
  bind_to_all c = 0%Z
  /\ vrf_add c = []
  /\ map gone_name (vrf_remove c) = list_effective_nodes conf ["vrf"; "name"]
  /\ forall (world : Type) (os : OS world) (w : world),
       (exists rest,
          trace_of (apply os c w) =
          Exec ["sysctl"; "-wq"; "net.ipv4.tcp_l3mdev_accept=0"]
          :: Exec ["sysctl"; "-wq"; "net.ipv4.udp_l3mdev_accept=0"] :: rest)
       \/ (trace_of (apply os c w) =
           [Exec ["sysctl"; "-wq"; "net.ipv4.tcp_l3mdev_accept=0"]]
           /\ exists msg, result_of (apply os c w) = inl (ConfigError msg)).
Proof.
  intros Habsent c.
  assert (Hbind : bind_to_all c = 0%Z)
    by (unfold c, get_config; now rewrite Habsent).
  split; [exact Hbind |]. split; [| split].
  - unfold c. now rewrite vrf_add_get_config, Habsent.
  - unfold c. rewrite vrf_remove_get_config, Habsent, map_map.
    apply map_id.
  - intros world os w.
    destruct (apply_phases os c w)
      as (policy & removals & additions & -> & Hpolicy & _).
    unfold policy_events in Hpolicy. rewrite Hbind in Hpolicy.
    destruct Hpolicy as [-> | (-> & -> & -> & Hmsg)].
    + left. eexists. reflexivity.
    + right. split; [reflexivity | exact Hmsg].
Qed.

(** Scenario D: the [vrf] node is gone and [BLUE] was effective. *)
Lemma vrf_node_absent_scenario_D :
  bind_to_all (get_config Lab.conf_D) = 0%Z
  /\ vrf_add (get_config Lab.conf_D) = []
  /\ map gone_name (vrf_remove (get_config Lab.conf_D)) = ["BLUE"].
Proof.
  destruct (vrf_node_absent Lab.conf_D eq_refl) as (Hbind & Hadd & Hremove & _).
  split; [exact Hbind |]. split; [exact Hadd | exact Hremove].
Defined.

(* ================================================================== *)
(** ** Additions *)

Lemma open_write_world (world : Type) (os : OS world)
      (file : string) (data : option string) (w : world) :
  world_of (open_write os file data w) = snd (write_file os file (alias_data data) w).
Proof.
  unfold open_write, world_of.
  destruct data as [d |]; simpl.
  - now destruct (write_file os file d w) as [[|] w1].
  - now destruct (write_file os file "" w) as [[|] w1].
Qed.

Lemma add_existing (world : Type) (os : OS world) (vrf : vrf_inst) (w : world) :
  isdir os ("/sys/class/net/" ++ name vrf) w = true ->
  apply_add os vrf w = open_write os (ifalias (name vrf)) (description vrf) w.
Proof.
  intros Hdir. unfold apply_add. cbv zeta.
  rewrite bind_isdir, Hdir. cbn [negb]. apply bind_ret.
Qed.

(** C8: an entry of [vrf_add] whose device exists runs as the alias write
    alone, and its one event is that write, none of the six creation commands
    (device creation, set-up and the four rules); and when writing a file
    leaves the directories as they are, a list of entries whose devices all
    exist causes alias writes only, one per entry in turn, all of them when
    the loop ends normally. *)
Theorem existing_device_only_alias (world : Type) (os : OS world) :
  (forall name0 table0, List.length (create_commands name0 table0) = 6)
  /\ (forall (vrf : vrf_inst) (w : world),
     isdir os ("/sys/class/net/" ++ name vrf) w = true ->
     apply_add os vrf w = open_write os (ifalias (name vrf)) (description vrf) w
     /\ trace_of (apply_add os vrf w) = [alias_event vrf])
  /\ (forall (l : list vrf_inst) (w : world),
        (forall f d w0 p, isdir os p (snd (write_file os f d w0)) = isdir os p w0) ->
        (forall vrf, In vrf l -> isdir os ("/sys/class/net/" ++ name vrf) w = true) ->
        (exists k, trace_of (for_each l (apply_add os) w) = map alias_event (firstn k l))
        /\ (result_of (for_each l (apply_add os) w) = inr tt ->
            trace_of (for_each l (apply_add os) w) = map alias_event l)).
Proof.
  split; [reflexivity | split].
  - intros vrf w Hdir. rewrite (add_existing os vrf w Hdir).
    split; [reflexivity | apply open_write_trace].
  - intros l w Hstable. revert w.
    induction l as [| vrf l IH]; intros w Hdirs.
    + split; [now exists 0 | reflexivity].
    + simpl for_each.
      assert (Hdir : isdir os ("/sys/class/net/" ++ name vrf) w = true)
        by (apply Hdirs; now left).
      assert (Ht : trace_of (apply_add os vrf w) = [alias_event vrf])
        by (rewrite (add_existing os vrf w Hdir); apply open_write_trace).
      assert (Hw : world_of (apply_add os vrf w) =
                   snd (write_file os (ifalias (name vrf))
                          (alias_data (description vrf)) w))
        by (rewrite (add_existing os vrf w Hdir); apply open_write_world).
      destruct (result_of (apply_add os vrf w)) as [e | []] eqn:Hres.
      * destruct (bind_raised (apply_add os vrf)
                    (fun _ => for_each l (apply_add os)) w Hres) as [-> ->].
        rewrite Ht. split; [now exists 1 | discriminate].
      * destruct (bind_returned (apply_add os vrf)
                    (fun _ => for_each l (apply_add os)) w Hres) as [-> ->].
        rewrite Ht, Hw.
        destruct (IH (snd (write_file os (ifalias (name vrf))
                             (alias_data (description vrf)) w)))
          as ((k & Hk) & Hall).
        { intros v Hv. rewrite Hstable. apply Hdirs. now right. }
        split.
        -- exists (S k). cbn [firstn map app]. f_equal. exact Hk.
        -- intros Hr. cbn [map app]. f_equal. exact (Hall Hr).
Qed.

(** Scenario A run again: [RED] exists, only its alias is written, by its
    iteration and by the whole addition phase. *)
Lemma existing_device_only_alias_RED :
  let RED := {| description := Some Py.nul; members := []; name := "RED";
                table := Some "100"; table_mod := false |} in
  (apply_add Lab.kernel RED ["RED"] =
   open_write Lab.kernel "/sys/class/net/RED/ifalias" (Some Py.nul) ["RED"]
   /\ trace_of (apply_add Lab.kernel RED ["RED"]) =
      [Write "/sys/class/net/RED/ifalias" Py.nul])
  /\ (result_of (for_each (vrf_add (get_config Lab.conf_A))
                   (apply_add Lab.kernel) ["RED"]) = inr tt ->
      trace_of (for_each (vrf_add (get_config Lab.conf_A))
                  (apply_add Lab.kernel) ["RED"]) =
      [Write "/sys/class/net/RED/ifalias" Py.nul]).
Proof.
  intros RED. split.
  - apply (proj1 (proj2 (existing_device_only_alias Lab.kernel)) RED ["RED"]).
    reflexivity.
  - apply (proj2 (proj2 (existing_device_only_alias Lab.kernel))
             (vrf_add (get_config Lab.conf_A)) ["RED"]).
    + reflexivity.
    + intros vrf [<- | []]. reflexivity.
Defined.

(* ================================================================== *)
(** ** Defaults of a declared VRF *)

Lemma append_empty_r (s : string) : (s ++ "")%string = s.
Proof.
  induction s as [| ch s IH]; simpl; [reflexivity | now rewrite IH].
Qed.

(** C6, as the specification states it, fails on a VRF declared without a
    description: its [description] is not the empty string, and the alias
    write of [apply] does not carry the empty string. *)
Lemma default_description_not_empty :
  let vrf := read_vrf Lab.conf_bare ["vrf"] "RED" in
  In vrf (vrf_add (get_config Lab.conf_bare))
  /\ exists_ Lab.conf_bare ["vrf"; "name"; "RED"; "description"] = false
  /\ description vrf <> Some ""
  /\ trace_of (apply_add Lab.kernel vrf ["RED"])
     <> [Write "/sys/class/net/RED/ifalias" ""].
Proof.
  repeat split.
  - left. reflexivity.
  - discriminate.
  - vm_compute. discriminate.
Qed.

(** C6, amended: for every declared VRF with no description configured, the
    [description] field is the one-character string made of NUL, and that is
    the only thing [apply] writes for it: every write of its iteration is the
    NUL string to the alias of its device, and it is the last event whenever
    the iteration ends normally. *)
Theorem default_description_is_nul (conf : Config) (vrf : vrf_inst) :
  In vrf (vrf_add (get_config conf)) ->
  exists_ conf ["vrf"; "name"; name vrf; "description"] = false ->
  description vrf = Some Py.nul
  /\ String.length Py.nul = 1
  /\ forall (world : Type) (os : OS world) (w : world),
       (forall file data,
          In (Write file data) (trace_of (apply_add os vrf w)) ->
          file = ifalias (name vrf) /\ data = Py.nul)
       /\ (result_of (apply_add os vrf w) = inr tt ->
           exists created,
             trace_of (apply_add os vrf w) =
             created ++ [Write (ifalias (name vrf)) Py.nul]).
Proof.
  intros Hin Hnone.
  assert (Hdesc : description vrf = Some Py.nul).
  { destruct (in_vrf_add _ _ Hin) as (_ & n & _ & ->).
    rewrite read_vrf_name in Hnone.
    rewrite read_vrf_description.
    change ((["vrf"] ++ ["name"; n]) ++ ["description"])
      with ["vrf"; "name"; n; "description"].
    now rewrite Hnone. }
  split; [exact Hdesc |]. split; [reflexivity |].
  intros world os w.
  assert (Halias : alias_event vrf = Write (ifalias (name vrf)) Py.nul)
    by (unfold alias_event; now rewrite Hdesc).
  destruct (add_run os vrf w) as (created & Hall & _ & _ & Hshape).
  assert (Hcreated : forall file data, ~ In (Write file data) created).
  { intros file data Hw. rewrite Forall_forall in Hall.
    destruct (Hall _ Hw) as (command & _ & He). discriminate He. }
  split.
  - intros file data Hw.
    destruct Hshape as [Ht | (Ht & _)]; rewrite Ht in Hw.
    + apply in_app_or in Hw. destruct Hw as [Hw | [Hw | []]].
      * now apply Hcreated in Hw.
      * rewrite Halias in Hw. injection Hw as <- <-. split; reflexivity.
    + now apply Hcreated in Hw.
  - intros Hok. destruct Hshape as [Ht | (_ & msg & Hmsg)].
    + exists created. now rewrite Ht, Halias.
    + congruence.
Qed.

(** [RED] declared with nothing else, its device in place. *)
Lemma default_description_is_nul_RED :
  description (read_vrf Lab.conf_bare ["vrf"] "RED") = Some Py.nul.
Proof.
  apply (default_description_is_nul Lab.conf_bare
           (read_vrf Lab.conf_bare ["vrf"] "RED")).
  - left. reflexivity.
  - reflexivity.
Defined.

Lemma verify_add_skips (vrf : vrf_inst) (before after : list vrf_inst) :
  table_mod vrf = false ->
  for_each_raise (before ++ vrf :: after) verify_add =
  for_each_raise (before ++ after) verify_add.
Proof.
  intros Hmod. induction before as [| v before IH]; simpl.
  - unfold verify_add at 1. now rewrite Hmod.
  - now rewrite IH.
Qed.

(** C10: a declared VRF without a [table] node is read with the empty
    string for table and without the marker; validation raises nothing on its
    account, its outcome being the one of the plan without that entry; and
    when the device is missing, the first event of its iteration in [apply] is
    the creation command that ends where the table number was to be. *)
Theorem no_table_declared (conf : Config) (n : string) :
  exists_ conf ["vrf"] = true ->
  In n (list_nodes conf ["vrf"; "name"]) ->
  exists_ conf ["vrf"; "name"; n; "table"] = false ->
  let vrf := read_vrf conf ["vrf"] n in
  In vrf (vrf_add (get_config conf))
  /\ name vrf = n
  /\ table vrf = Some ""
  /\ table_mod vrf = false
  /\ (forall bind del existing gone before after,
        verify {| bind_to_all := bind; deleted := del;
                  vrf_add := before ++ vrf :: after;
                  vrf_existing := existing; vrf_remove := gone |} =
        verify {| bind_to_all := bind; deleted := del;
                  vrf_add := before ++ after;
                  vrf_existing := existing; vrf_remove := gone |})
  /\ (forall (world : Type) (os : OS world) (w : world),
        isdir os ("/sys/class/net/" ++ n) w = false ->
        exists rest,
          trace_of (apply_add os vrf w) =
          Exec (Py.split ("ip link add " ++ n ++ " type vrf table ")) :: rest).
Proof.
  intros Hbase Hdeclared Hnone vrf.
  assert (Htable : table vrf = Some "").
  { unfold vrf. rewrite read_vrf_table.
    change ((["vrf"] ++ ["name"; n]) ++ ["table"]) with ["vrf"; "name"; n; "table"].
    now rewrite Hnone. }
  assert (Hmod : table_mod vrf = false).
  { unfold vrf. rewrite read_vrf_table_mod.
    change ((["vrf"] ++ ["name"; n]) ++ ["table"]) with ["vrf"; "name"; n; "table"].
    now rewrite Hnone. }
  assert (Hname : name vrf = n) by apply read_vrf_name.
  split; [| split; [exact Hname | split; [exact Htable | split; [exact Hmod | split]]]].
  - rewrite vrf_add_get_config, Hbase. now apply in_map.
  - intros bind del existing gone before after.
    unfold verify. cbn [vrf_add vrf_remove].
    now rewrite (verify_add_skips vrf before after Hmod).
  - intros world os w Hdir.
    destruct (add_run os vrf w) as (created & _ & _ & Hfirst & Hshape).
    rewrite Hname, Htable in Hfirst. cbn [Py.format] in Hfirst.
    rewrite append_empty_r in Hfirst.
    destruct (Hfirst Hdir) as (t & ->).
    destruct Hshape as [-> | (-> & _)]; eexists; reflexivity.
Qed.

(** [RED] declared without a table on a system without its device: the
    creation command has no table number. *)
Lemma no_table_declared_RED :
  exists rest,
    trace_of (apply_add Lab.kernel (read_vrf Lab.conf_bare ["vrf"] "RED") []) =
    Exec ["ip"; "link"; "add"; "RED"; "type"; "vrf"; "table"] :: rest.
Proof.
  destruct (no_table_declared Lab.conf_bare "RED" eq_refl (or_introl eq_refl) eq_refl)
    as (_ & _ & _ & _ & _ & Hcreate).
  exact (Hcreate _ Lab.kernel [] eq_refl).
Defined.

(* ================================================================== *)
(** ** Member interfaces *)

Lemma in_interfaces_with_vrf (conf : Config) (match_ ifname : string) :
  In ifname (interfaces_with_vrf conf match_) <->
  exists type ifs attrs,
    In (type, ifs) (get_config_dict_interfaces conf)
    /\ In (ifname, attrs) ifs
    /\ dict_get "vrf" attrs = Some match_.
Proof.
  unfold interfaces_with_vrf. rewrite in_flat_map. split.
  - intros ([type ifs] & Htype & Hin). cbn [snd] in Hin.
    rewrite in_flat_map in Hin. destruct Hin as ([n attrs] & Hif & Hn).
    cbn [fst snd] in Hn.
    destruct (dict_get "vrf" attrs) as [v |] eqn:Hv; [| destruct Hn].
    destruct (String.eqb v match_) eqn:Heq; [| destruct Hn].
    destruct Hn as [<- | []]. apply String.eqb_eq in Heq. subst v.
    exists type, ifs, attrs. auto.
  - intros (type & ifs & attrs & Htype & Hif & Hv).
    exists (type, ifs). split; [exact Htype |]. cbn [snd].
    rewrite in_flat_map. exists (ifname, attrs). split; [exact Hif |].
    cbn [fst snd]. rewrite Hv, String.eqb_refl. now left.
Qed.

(** X1: [interfaces_with_vrf] returns exactly the names of the interfaces,
    of any type, that have a ['vrf'] attribute equal to the name asked for;
    an interface without that attribute, or of a section without interfaces,
    is never returned. *)
Theorem interfaces_with_vrf_spec (conf : Config) (match_ ifname : string) :
  (In ifname (interfaces_with_vrf conf match_) <->
   exists type ifs attrs,
     In (type, ifs) (get_config_dict_interfaces conf)
     /\ In (ifname, attrs) ifs
     /\ dict_get "vrf" attrs = Some match_)
  /\ (get_config_dict_interfaces conf = [] -> interfaces_with_vrf conf match_ = [])
  /\ ((forall type ifs n attrs,
         In (type, ifs) (get_config_dict_interfaces conf) ->
         In (n, attrs) ifs -> dict_get "vrf" attrs = None) ->
      interfaces_with_vrf conf match_ = []).
Proof.
  split; [apply in_interfaces_with_vrf | split].
  - intros Hnil. unfold interfaces_with_vrf. now rewrite Hnil.
  - intros Hnone.
    destruct (interfaces_with_vrf conf match_) as [| n l] eqn:Hl; [reflexivity |].
    assert (Hin : In n (interfaces_with_vrf conf match_))
      by (rewrite Hl; now left).
    apply in_interfaces_with_vrf in Hin.
    destruct Hin as (type & ifs & attrs & Ht & Hi & Hv).
    rewrite (Hnone _ _ _ _ Ht Hi) in Hv. discriminate Hv.
Qed.

(* ================================================================== *)
(** ** What validation accepts, and what it reports first *)

(** X2: [verify] returns normally exactly for the plans in which no entry
    of [vrf_remove] has members and no entry of [vrf_add] carries the
    table-change marker. *)
Theorem verify_passes_iff (c : vrf_config) :
  verify c = inr tt <->
  (forall vrf, In vrf (vrf_remove c) -> gone_members vrf = [])
  /\ (forall vrf, In vrf (vrf_add c) -> table_mod vrf = false).
Proof.
  split.
  - intros Hok.
    destruct (verify_cases c) as [(_ & Hr & Ha) | [(v & _ & _ & H) | (H & _)]].
    + auto.
    + congruence.
    + congruence.
  - intros [Hr Ha].
    destruct (verify_cases c)
      as [(H & _) | [(v & Hin & Hne & _) | (_ & _ & v & Hin & Hmod)]].
    + exact H.
    + now apply Hr in Hin.
    + apply Ha in Hin. congruence.
Qed.

Lemma verify_remove_first (before after : list vrf_gone) (vrf : vrf_gone) :
  (forall v, In v before -> gone_members v = []) ->
  gone_members vrf <> [] ->
  for_each_raise (before ++ vrf :: after) verify_remove =
  inl (ConfigError (in_use_msg (gone_name vrf))).
Proof.
  intros Hfree Hne. induction before as [| v before IH]; simpl.
  - unfold verify_remove. apply members_test in Hne. now rewrite Hne.
  - unfold verify_remove at 1.
    rewrite (Hfree v (or_introl eq_refl)). simpl.
    apply IH. intros v' Hin. apply Hfree. now right.
Qed.

(** X3: [verify] reports the first entry of [vrf_remove] that has members,
    in the order of the list, whatever follows it and whatever [vrf_add]
    holds: a blocked removal hides a table change. *)
Theorem verify_reports_first (c : vrf_config)
        (before after : list vrf_gone) (vrf : vrf_gone) :
  vrf_remove c = before ++ vrf :: after ->
  (forall v, In v before -> gone_members v = []) ->
  gone_members vrf <> [] ->
  verify c = inl (ConfigError (in_use_msg (gone_name vrf))).
Proof.
  intros Hsplit Hfree Hne. unfold verify.
  now rewrite Hsplit, (verify_remove_first before after vrf Hfree Hne).
Qed.

(** Two blocked removals behind a free one, and a table change: the first
    blocked one is reported. *)
Lemma verify_reports_first_example :
  verify {| bind_to_all := 0; deleted := false;
            vrf_add := [{| description := Some "lab"; members := [];
                           name := "GREEN"; table := Some "200";
                           table_mod := true |}];
            vrf_existing := [];
            vrf_remove := [{| gone_members := []; gone_name := "RED" |};
                           {| gone_members := ["eth1"]; gone_name := "BLUE" |};
                           {| gone_members := ["eth2"]; gone_name := "GREY" |}] |}
  = inl (ConfigError (in_use_msg "BLUE")).
Proof.
  apply (verify_reports_first
           {| bind_to_all := 0; deleted := false;
              vrf_add := [{| description := Some "lab"; members := [];
                             name := "GREEN"; table := Some "200";
                             table_mod := true |}];
              vrf_existing := [];
              vrf_remove := [{| gone_members := []; gone_name := "RED" |};
                             {| gone_members := ["eth1"]; gone_name := "BLUE" |};
                             {| gone_members := ["eth2"]; gone_name := "GREY" |}] |}
           [{| gone_members := []; gone_name := "RED" |}]
           [{| gone_members := ["eth2"]; gone_name := "GREY" |}]
           {| gone_members := ["eth1"]; gone_name := "BLUE" |}).
  - reflexivity.
  - intros v [<- | []]. reflexivity.
  - discriminate.
Defined.

(* ================================================================== *)
(** ** Where an effective name goes *)

Lemma names_of_vrf_add (conf : Config) :
  map name (vrf_add (get_config conf)) =
  if exists_ conf ["vrf"] then list_nodes conf ["vrf"; "name"] else [].
Proof.
  rewrite vrf_add_get_config.
  destruct (exists_ conf ["vrf"]); [| reflexivity].
  rewrite map_map. rewrite <- (map_id (list_nodes conf ["vrf"; "name"])) at 2.
  apply map_ext. intros n. apply read_vrf_name.
Qed.

Lemma names_of_vrf_remove (conf : Config) :
  map gone_name (vrf_remove (get_config conf)) =
  if exists_ conf ["vrf"]
  then list_diff (list_effective_nodes conf ["vrf"; "name"])
                 (list_nodes conf ["vrf"; "name"])
  else list_effective_nodes conf ["vrf"; "name"].
Proof.
  rewrite vrf_remove_get_config, map_map.
  destruct (exists_ conf ["vrf"]); apply map_id.
Qed.

(** X4: every effective VRF name ends in exactly one of the two lists of
    the configuration that [get_config] returns: among the names of
    [vrf_add] when it is still declared under an existing [vrf] node, among
    the names of [vrf_remove] otherwise.  ([list_diff] is the difference of
    the specification.) *)
Theorem effective_name_placed (conf : Config) (n : string) :
  In n (list_effective_nodes conf ["vrf"; "name"]) ->
  let c := get_config conf in
  (In n (map name (vrf_add c)) /\ ~ In n (map gone_name (vrf_remove c))
   /\ exists_ conf ["vrf"] = true /\ In n (list_nodes conf ["vrf"; "name"]))
  \/ (~ In n (map name (vrf_add c)) /\ In n (map gone_name (vrf_remove c))
      /\ (exists_ conf ["vrf"] = false \/ ~ In n (list_nodes conf ["vrf"; "name"]))).
Proof.
  intros Heff c. unfold c.
  rewrite names_of_vrf_add, names_of_vrf_remove.
  destruct (exists_ conf ["vrf"]).
  - destruct (in_dec string_dec n (list_nodes conf ["vrf"; "name"])) as [Hd | Hd].
    + left. repeat split; auto.
      rewrite in_list_diff. intros [_ H]. now apply H.
    + right. repeat split; auto.
      rewrite in_list_diff. auto.
  - right. repeat split; auto.
Qed.

(** [BLUE] was effective and is not declared any more. *)
Lemma effective_name_placed_BLUE :
  (In "BLUE" (map name (vrf_add (get_config Lab.conf_swap)))
   /\ ~ In "BLUE" (map gone_name (vrf_remove (get_config Lab.conf_swap)))
   /\ exists_ Lab.conf_swap ["vrf"] = true
   /\ In "BLUE" (list_nodes Lab.conf_swap ["vrf"; "name"]))
  \/ (~ In "BLUE" (map name (vrf_add (get_config Lab.conf_swap)))
      /\ In "BLUE" (map gone_name (vrf_remove (get_config Lab.conf_swap)))
      /\ (exists_ Lab.conf_swap ["vrf"] = false
          \/ ~ In "BLUE" (list_nodes Lab.conf_swap ["vrf"; "name"]))).
Proof.
  apply (effective_name_placed Lab.conf_swap "BLUE").
  left. reflexivity.
Defined.

(* ================================================================== *)
(** ** Runs that validation refuses *)

Lemma main_refused (world : Type) (os : OS world) (conf : Config) (w : world)
      (msg : string) :
  verify (get_config conf) = inl (ConfigError msg) ->
  main os conf w = (Exit1 msg, w, []).
Proof.
  intros H. unfold main. now rewrite H.
Qed.

Lemma in_vrf_remove (conf : Config) (n : string) :
  In n (list_effective_nodes conf ["vrf"; "name"]) ->
  exists_ conf ["vrf"] = false \/ ~ In n (list_nodes conf ["vrf"; "name"]) ->
  In (read_gone conf n) (vrf_remove (get_config conf)).
Proof.
  intros Heff Hgone. rewrite vrf_remove_get_config. apply in_map.
  destruct (exists_ conf ["vrf"]).
  - destruct Hgone as [Hf | Hn]; [discriminate |].
    apply in_list_diff. auto.
  - exact Heff.
Qed.

(** X5: when an interface still names a VRF that was effective and is no
    longer declared, the script ends with status 1 and the message of a
    blocked removal, and nothing has been run on the system. *)
Theorem referenced_vrf_blocks_run (world : Type) (os : OS world)
        (conf : Config) (w : world) (n type ifname : string)
        (ifs : list (string * attributes)) (attrs : attributes) :
  In n (list_effective_nodes conf ["vrf"; "name"]) ->
  exists_ conf ["vrf"] = false \/ ~ In n (list_nodes conf ["vrf"; "name"]) ->
  In (type, ifs) (get_config_dict_interfaces conf) ->
  In (ifname, attrs) ifs ->
  dict_get "vrf" attrs = Some n ->
  exists blocked,
    In blocked (vrf_remove (get_config conf))
    /\ gone_members blocked <> []
    /\ main os conf w = (Exit1 (in_use_msg (gone_name blocked)), w, []).
Proof.
  intros Heff Hgone Htype Hif Hvrf.
  pose proof (in_vrf_remove conf n Heff Hgone) as Hin.
  assert (Hmembers : gone_members (read_gone conf n) <> []).
  { cbn [read_gone gone_members]. intros Hnil.
    assert (Hm : In ifname (interfaces_with_vrf conf n)).
    { apply in_interfaces_with_vrf. exists type, ifs, attrs. auto. }
    now rewrite Hnil in Hm. }
  destruct (verify_cases (get_config conf))
    as [(_ & H & _) | [(v & Hv & Hne & H) | (_ & H & _)]].
  - now apply H in Hin.
  - exists v. repeat split; auto. now apply main_refused.
  - now apply H in Hin.
Qed.

(** Scenario B on a system that has the device. *)
Lemma referenced_vrf_blocks_run_scenario_B :
  exists blocked,
    In blocked (vrf_remove (get_config Lab.conf_B))
    /\ gone_members blocked <> []
    /\ main Lab.kernel Lab.conf_B ["BLUE"] =
       (Exit1 (in_use_msg (gone_name blocked)), ["BLUE"], []).
Proof.
  apply (@referenced_vrf_blocks_run Lab.devices Lab.kernel Lab.conf_B ["BLUE"]
           "BLUE" "ethernet" "eth1"
           [("eth0", [("address", "192.0.2.1/24")]); ("eth1", [("vrf", "BLUE")])]
           [("vrf", "BLUE")]).
  - left. reflexivity.
  - left. reflexivity.
  - left. reflexivity.
  - right. left. reflexivity.
  - reflexivity.
Defined.

(** X6: when a declared VRF has a [table] node whose value differs from a
    non-empty table in effect, the script ends with status 1 and nothing has
    been run on the system; the message is the fixed one of a table change,
    unless a blocked removal is reported before it. *)
Theorem table_change_blocks_run (world : Type) (os : OS world)
        (conf : Config) (w : world) (n t : string) :
  exists_ conf ["vrf"] = true ->
  In n (list_nodes conf ["vrf"; "name"]) ->
  exists_ conf ["vrf"; "name"; n; "table"] = true ->
  return_effective_value conf ["vrf"; "name"; n; "table"] = Some t ->
  t <> "" ->
  Some t <> return_value conf ["vrf"; "name"; n; "table"] ->
  exists msg,
    main os conf w = (Exit1 msg, w, [])
    /\ (msg = table_mod_msg
        \/ exists blocked, In blocked (vrf_remove (get_config conf))
                           /\ gone_members blocked <> []
                           /\ msg = in_use_msg (gone_name blocked)).
Proof.
  intros Hbase Hdeclared Htable Heff Hne Hdiff.
  assert (Hin : In (read_vrf conf ["vrf"] n) (vrf_add (get_config conf))).
  { rewrite vrf_add_get_config, Hbase. now apply in_map. }
  assert (Hmod : table_mod (read_vrf conf ["vrf"] n) = true).
  { rewrite read_vrf_table_mod.
    change ((["vrf"] ++ ["name"; n]) ++ ["table"]) with ["vrf"; "name"; n; "table"].
    rewrite Htable, Heff. destruct t as [| ch t]; [now elim Hne |].
    cbn [Py.truthy andb]. apply negb_true_iff, not_true_iff_false.
    intros Heq. apply option_string_eqb_eq in Heq. now apply Hdiff. }
  destruct (verify_cases (get_config conf))
    as [(_ & _ & H) | [(v & Hv & Hmem & H) | (H & _)]].
  - apply H in Hin. congruence.
  - exists (in_use_msg (gone_name v)). split; [now apply main_refused |].
    right. exists v. auto.
  - exists table_mod_msg. split; [now apply main_refused | now left].
Qed.

(** Scenario C on a system that has the device. *)
Lemma table_change_blocks_run_scenario_C :
  exists msg,
    main Lab.kernel Lab.conf_C ["GREEN"] = (Exit1 msg, ["GREEN"], [])
    /\ (msg = table_mod_msg
        \/ exists blocked, In blocked (vrf_remove (get_config Lab.conf_C))
                           /\ gone_members blocked <> []
                           /\ msg = in_use_msg (gone_name blocked)).
Proof.
  apply (@table_change_blocks_run Lab.devices Lab.kernel Lab.conf_C ["GREEN"]
           "GREEN" "100").
  - reflexivity.
  - left. reflexivity.
  - reflexivity.
  - reflexivity.
  - discriminate.
  - discriminate.
Defined.

(* ================================================================== *)
(** ** Creating a device *)





(* ================================================================== *)
(** ** How [apply] fails *)

Section Failing.

Variable world : Type.
Variable os : OS world.

Lemma raised_by_later (e : exn) (earlier t : list event) :
  raised_by os e t -> raised_by os e (earlier ++ t).
Proof.
  destruct e as [msg | |]; simpl.
  - intros (before & argv & d & w & -> & Hd & Hmsg).
    exists (earlier ++ before), argv, d, w. now rewrite app_assoc.
  - trivial.
  - intros (before & file & ->).
    exists (earlier ++ before), file. now rewrite app_assoc.
Qed.

Lemma explained_bind (A B : Type) (m : M world A) (f : A -> M world B) :
  explained os m -> (forall a, explained os (f a)) -> explained os (bind m f).
Proof.
  intros Hm Hf w e.
  destruct (result_of (m w)) as [e0 | a] eqn:Hr.
  - destruct (bind_raised m f w Hr) as [-> ->].
    intros [= <-]. now apply Hm.
  - destruct (bind_returned m f w Hr) as [-> ->].
    intros He. apply raised_by_later. now apply Hf.
Qed.

Lemma explained_ret (A : Type) (a : A) : explained os (ret (world := world) a).
Proof.
  intros w e. discriminate.
Qed.

Lemma explained_isdir (p : string) : explained os (path_isdir os p).
Proof.
  intros w e. discriminate.
Qed.

Lemma explained_cmd (command : string) : explained os (_cmd os command).
Proof.
  intros w e. unfold _cmd, result_of, trace_of.
  destruct (check_call os (Py.split command) w) as [[d |] w1] eqn:Hc; simpl;
    [| discriminate].
  intros [= <-]. exists [], (Py.split command), d, w.
  rewrite Hc. repeat split.
Qed.

Lemma explained_open_write (file : string) (data : option string) :
  explained os (open_write os file data).
Proof.
  intros w e. unfold open_write, result_of, trace_of.
  destruct data as [d |].
  - destruct (write_file os file d w) as [[|] w1] eqn:Hw; simpl; [discriminate |].
    intros [= <-]. exact I.
  - destruct (write_file os file "" w) as [[|] w1] eqn:Hw; simpl.
    + intros [= <-]. now exists [], file.
    + intros [= <-]. exact I.
Qed.

Lemma explained_for_each (A : Type) (l : list A) (body : A -> M world unit) :
  (forall x, explained os (body x)) -> explained os (for_each l body).
Proof.
  intros Hbody. induction l as [| x l IH]; simpl.
  - apply explained_ret.
  - apply explained_bind; [apply Hbody | intros _; exact IH].
Qed.

Lemma explained_apply (c : vrf_config) : explained os (apply os c).
Proof.
  unfold apply. apply explained_bind.
  - unfold apply_policy. apply explained_bind; [apply explained_cmd |].
    intros _. apply explained_cmd.
  - intros _. apply explained_bind.
    + apply explained_for_each. intros vrf. unfold apply_remove.
      apply explained_bind; [apply explained_isdir |].
      intros [|]; [apply explained_cmd | apply explained_ret].
    + intros _. apply explained_for_each. intros vrf. unfold apply_add.
      cbv zeta. apply explained_bind; [apply explained_isdir |].
      intros b. apply explained_bind; [| intros _; apply explained_open_write].
      destruct (negb b); [| apply explained_ret].
      apply explained_for_each. intros command. apply explained_cmd.
Qed.

End Failing.

(** X8: a [ConfigError] or a [TypeError] stops [apply] at the event that
    caused it.  When [apply] raises [ConfigError], the last event is a command
    that [check_call] rejects and the message is
    ["Error operationg on VRF: "] followed by the text of that rejection;
    when it raises [TypeError], the last event is the emptying of the file
    that was to receive [None]. *)
Theorem apply_stops_at_failure (world : Type) (os : OS world)
        (c : vrf_config) (w : world) :
  (forall msg,
     result_of (apply os c w) = inl (ConfigError msg) ->
     exists before argv d w0,
       trace_of (apply os c w) = before ++ [Exec argv]
       /\ fst (check_call os argv w0) = Some d
       /\ msg = ("Error operationg on VRF: " ++ d)%string)
  /\ (result_of (apply os c w) = inl TypeError ->
      exists before file, trace_of (apply os c w) = before ++ [Write file ""]).
Proof.
  split.
  - intros msg He. exact (explained_apply os c w He).
  - intros He. exact (explained_apply os c w He).
Qed.

(** [RED] declared without a table: the creation command is rejected and
    nothing follows it. *)
Lemma apply_stops_at_failure_RED :
  exists before argv d w0,
    trace_of (apply Lab.kernel (get_config Lab.conf_bare) []) = before ++ [Exec argv]
    /\ fst (check_call Lab.kernel argv w0) = Some d
    /\ ("Error operationg on VRF: Command '['ip', 'link', 'add', 'RED', 'type', 'vrf', 'table']' returned non-zero exit status 255."
        = "Error operationg on VRF: " ++ d)%string.
Proof.
  apply (proj1 (apply_stops_at_failure Lab.kernel (get_config Lab.conf_bare) [])
           "Error operationg on VRF: Command '['ip', 'link', 'add', 'RED', 'type', 'vrf', 'table']' returned non-zero exit status 255.").
  reflexivity.
Defined.

(** X9: the only files that [apply] writes are the [ifalias] of the entries
    of [vrf_add], each with the description of its entry (nothing for
    [None]); the policy and removal phases write no file. *)
Theorem apply_writes_only_aliases (world : Type) (os : OS world)
        (c : vrf_config) (w : world) (file data : string) :
  In (Write file data) (trace_of (apply os c w)) ->
  exists vrf,
    In vrf (vrf_add c)
    /\ file = ("/sys/class/net/" ++ name vrf ++ "/ifalias")%string
    /\ data = alias_data (description vrf).
Proof.
  destruct (apply_phases os c w)
    as (policy & removals & additions & -> & Hpolicy & Hremovals & Hadditions).
  intros Hin. apply in_app_or in Hin. destruct Hin as [Hin | Hin].
  - exfalso.
    destruct Hpolicy as [-> | (-> & _)]; simpl in Hin;
      repeat (destruct Hin as [Hin | Hin]; [discriminate Hin |]); exact Hin.
  - apply in_app_or in Hin. destruct Hin as [Hin | Hin].
    + rewrite Forall_forall in Hremovals.
      destruct (Hremovals _ Hin) as (vrf & _ & He). discriminate He.
    + rewrite Forall_forall in Hadditions.
      destruct (Hadditions _ Hin) as (vrf & Hvrf & [(command & _ & He) | He]).
      * discriminate He.
      * exists vrf. injection He as -> ->. auto.
Qed.

(** Scenario A run on a system that has the device. *)
Lemma apply_writes_only_aliases_scenario_A :
  exists vrf,
    In vrf (vrf_add (get_config Lab.conf_A))
    /\ "/sys/class/net/RED/ifalias" = ("/sys/class/net/" ++ name vrf ++ "/ifalias")%string
    /\ Py.nul = alias_data (description vrf).
Proof.
  apply (@apply_writes_only_aliases Lab.devices Lab.kernel
           (get_config Lab.conf_A) ["RED"] "/sys/class/net/RED/ifalias" Py.nul).
  right. right. left. reflexivity.
Defined.

(** The removal phase of scenario D leaves [BLUE] in place. *)
Lemma removals_never_delete_BLUE :
  for_each (vrf_remove (get_config Lab.conf_D)) (apply_remove Lab.kernel) ["BLUE"] =
  (inr tt, ["BLUE"], []).
Proof.
  apply (removals_never_delete Lab.kernel (vrf_remove (get_config Lab.conf_D)) ["BLUE"]).
  intros p Hdir. cbn [Lab.kernel isdir existsb] in Hdir.
  rewrite orb_false_r in Hdir. apply String.eqb_eq in Hdir. subst p.
  reflexivity.
Defined.

(* ================================================================== *)
(** ** The path of a removal *)

Lemma repr_char_length (q c : ascii) : 1 <= String.length (Py.repr_char q c).
Proof.
  unfold Py.repr_char.
  repeat match goal with
         | |- context [if ?b then _ else _] => destruct b
         end; simpl; lia.
Qed.

Lemma repr_body_length (q : ascii) (s : string) :
  String.length s <= String.length (Py.repr_body q s).
Proof.
  induction s as [| c s IH]; simpl; [lia |].
  rewrite length_append. pose proof (repr_char_length q c). lia.
Qed.

Lemma repr_str_length (s : string) :
  String.length s + 2 <= String.length (Py.repr_str s).
Proof.
  unfold Py.repr_str. cbv zeta. cbn [String.length].
  rewrite length_append. cbn [String.length].
  match goal with
  | |- context [Py.repr_body ?q s] => pose proof (repr_body_length q s)
  end.
  lia.
Qed.

(** X11: for every entry of [vrf_remove], the path that the removal loop
    probes, and the name it would give to [ip link delete], differ from the
    path and the name of the entry's device: the printed dictionary is longer
    than the name it holds. *)
Theorem removal_probe_is_not_device (vrf : vrf_gone) :
  ("/sys/class/net/" ++ format_gone vrf <> "/sys/class/net/" ++ gone_name vrf)%string
  /\ format_gone vrf <> gone_name vrf
  /\ String.length (gone_name vrf) + 27 <= String.length (format_gone vrf).
Proof.
  assert (Hlen : String.length (gone_name vrf) + 27 <= String.length (format_gone vrf)).
  { unfold format_gone. rewrite !length_append.
    pose proof (repr_str_length (gone_name vrf)).
    assert (2 <= String.length (Py.repr_list (gone_members vrf))).
    { unfold Py.repr_list. cbn [append]. cbn [String.length].
      rewrite length_append. cbn [String.length]. lia. }
    cbn [String.length]. lia. }
  assert (Hne : format_gone vrf <> gone_name vrf).
  { intros Heq. rewrite Heq in Hlen. lia. }
  split; [| split; [exact Hne | exact Hlen]].
  intros Heq. apply Hne.
  cbn [append] in Heq. now repeat injection Heq as Heq.
Qed.

(* ================================================================== *)
(** ** How the script ends *)

(** X12: the outcomes of the script, each way round.  It ends with status
    0 exactly when validation passes and [apply] returns.  It ends with status
    1 and a message exactly when validation raises [ConfigError] with that
    message, or validation passes and [apply] raises [ConfigError] with it.
    An exception escapes it exactly when validation passes and [apply] raises
    [OSError] or [TypeError].  A message of validation is that of a blocked
    removal or of a table change, and nothing has been run; a message of
    [apply] is ["Error operationg on VRF: "] followed by the text of the
    command that failed. *)
Theorem main_outcomes (world : Type) (os : OS world) (conf : Config) (w : world) :
  let c := get_config conf in
  let status := fst (fst (main os conf w)) in
  (status = Exit0 <-> verify c = inr tt /\ result_of (apply os c w) = inr tt)
  /\ (forall msg,
        status = Exit1 msg <->
        verify c = inl (ConfigError msg)
        \/ (verify c = inr tt /\ result_of (apply os c w) = inl (ConfigError msg)))
  /\ (forall e,
        status = Uncaught e <->
        verify c = inr tt /\ result_of (apply os c w) = inl e
        /\ (e = OSError \/ e = TypeError))
  /\ (forall msg,
        verify c = inl (ConfigError msg) ->
        main os conf w = (Exit1 msg, w, [])
        /\ ((exists vrf, In vrf (vrf_remove c) /\ gone_members vrf <> []
                         /\ msg = in_use_msg (gone_name vrf))
            \/ (msg = table_mod_msg
                /\ exists vrf, In vrf (vrf_add c) /\ table_mod vrf = true)))
  /\ (forall msg,
        result_of (apply os c w) = inl (ConfigError msg) ->
        exists d, msg = ("Error operationg on VRF: " ++ d)%string).
Proof.
  intros c status. unfold status, c. clear status c.
  assert (Hprefix : forall msg,
             result_of (apply os (get_config conf) w) = inl (ConfigError msg) ->
             exists d, msg = ("Error operationg on VRF: " ++ d)%string).
  { intros msg He.
    destruct (explained_apply os (get_config conf) w He)
      as (_ & _ & d & _ & _ & _ & Hmsg).
    now exists d. }
  assert (Hrefused : forall msg,
             verify (get_config conf) = inl (ConfigError msg) ->
             (exists vrf, In vrf (vrf_remove (get_config conf))
                          /\ gone_members vrf <> []
                          /\ msg = in_use_msg (gone_name vrf))
             \/ (msg = table_mod_msg
                 /\ exists vrf, In vrf (vrf_add (get_config conf))
                                /\ table_mod vrf = true)).
  { intros msg Hv.
    destruct (verify_cases (get_config conf))
      as [(Hok & _) | [(v & Hin & Hne & H) | (H & _ & Hmod)]].
    - congruence.
    - left. exists v. repeat split; auto.
      rewrite H in Hv. now apply raised_message in Hv.
    - right. rewrite H in Hv. apply raised_message in Hv. now subst msg. }
  assert (Hverify : verify (get_config conf) = inr tt
                    \/ exists m, verify (get_config conf) = inl (ConfigError m)).
  { destruct (verify_cases (get_config conf))
      as [(Hok & _) | [(v & _ & _ & H) | (H & _)]]; eauto. }
  split; [| split; [| split; [| split]]].
  - destruct Hverify as [Hok | [m Hm]].
    + unfold main, result_of. rewrite Hok.
      destruct (apply os (get_config conf) w) as [[[e | []] w1] t]; cbn [fst snd finish].
      * destruct e; split; try discriminate; intros [_ H]; discriminate H.
      * split; auto.
    + rewrite (main_refused os conf w Hm), Hm. cbn [fst].
      split; [discriminate | intros [H _]; discriminate H].
  - intros msg. destruct Hverify as [Hok | [m Hm]].
    + unfold main, result_of. rewrite Hok.
      destruct (apply os (get_config conf) w) as [[[e | []] w1] t]; cbn [fst snd finish].
      * destruct e as [m | |]; split.
        -- intros [= ->]. right. auto.
        -- intros [H | [_ H]]; [discriminate H |]. now injection H as ->.
        -- discriminate.
        -- intros [H | [_ H]]; discriminate H.
        -- discriminate.
        -- intros [H | [_ H]]; discriminate H.
      * split; [discriminate | intros [H | [_ H]]; discriminate H].
    + rewrite (main_refused os conf w Hm), Hm. cbn [fst]. split.
      * intros [= ->]. now left.
      * intros [H | [H _]]; [| discriminate H].
        apply raised_message in H. now subst m.
  - intros e. destruct Hverify as [Hok | [m Hm]].
    + unfold main, result_of. rewrite Hok.
      destruct (apply os (get_config conf) w) as [[[e0 | []] w1] t]; cbn [fst snd finish].
      * destruct e0 as [m | |]; split.
        -- discriminate.
        -- intros (_ & H & [-> | ->]); discriminate H.
        -- intros [= <-]. auto.
        -- intros (_ & H & _). now injection H as <-.
        -- intros [= <-]. auto.
        -- intros (_ & H & _). now injection H as <-.
      * split; [discriminate | intros (_ & H & _); discriminate H].
    + rewrite (main_refused os conf w Hm), Hm. cbn [fst].
      split; [discriminate | intros (H & _); discriminate H].
  - intros msg Hv. split; [now apply main_refused | now apply Hrefused].
  - exact Hprefix.
Qed.

(* ================================================================== *)
(** ** The argument vectors *)

Lemma split_from_word (word : string) :
  all_plain word = true ->
  forall acc rest,
    Py.split_from acc (word ++ rest) = Py.split_from (acc ++ word) rest.
Proof.
  induction word as [| c word IH]; intros Hword acc rest.
  - now rewrite append_empty_r.
  - cbn [all_plain] in Hword. apply andb_true_iff in Hword.
    destruct Hword as [Hc Hword]. apply andb_true_iff in Hc.
    destruct Hc as [_ Hc]. apply negb_true_iff in Hc.
    cbn [append Py.split_from]. rewrite Hc, (IH Hword).
    now rewrite <- append_assoc.
Qed.

Lemma split_from_last (word : string) :
  one_word word -> Py.split_from "" word = [word].
Proof.
  intros [Hne Hword].
  rewrite <- (append_empty_r word) at 1.
  rewrite (split_from_word word Hword). cbn [append Py.split_from].
  now destruct word.
Qed.

Lemma split_from_next (word rest : string) :
  one_word word ->
  Py.split_from "" (word ++ " " ++ rest) = word :: Py.split_from "" rest.
Proof.
  intros [Hne Hword].
  rewrite (split_from_word word Hword). cbn [append Py.split_from].
  change (Py.isspace " ") with true. cbv iota.
  now destruct word.
Qed.

(** Words joined by single spaces are split into the same words. *)
Lemma split_concat (l : list string) :
  Forall one_word l -> Py.split (String.concat " " l) = l.
Proof.
  unfold Py.split. induction 1 as [| word l Hword Hl IH]; [reflexivity |].
  destruct l as [| next l].
  - now apply split_from_last.
  - change (String.concat " " (word :: next :: l))
      with (word ++ " " ++ String.concat " " (next :: l))%string.
    rewrite (split_from_next _ Hword). now rewrite IH.
Qed.

Ltac literal_word := split; [discriminate | reflexivity].

Ltac all_words :=
  repeat first
    [ apply Forall_nil
    | apply Forall_cons; [first [assumption | literal_word] |] ].

(** X13: when the name and the table of an entry are single words (not
    empty, made of ASCII characters, without white space), each of the six
    creation commands reaches [check_call] as the argument vector one reads in
    the source, the name and the table each being one argument. *)
Theorem create_commands_argv (name0 table0 : string) :
  one_word name0 ->
  one_word table0 ->
  map Py.split (create_commands name0 table0) =
  [ ["ip"; "link"; "add"; name0; "type"; "vrf"; "table"; table0];
    ["ip"; "link"; "set"; "dev"; name0; "up"];
    ["ip"; "-4"; "rule"; "add"; "oif"; name0; "lookup"; table0];
    ["ip"; "-4"; "rule"; "add"; "iif"; name0; "lookup"; table0];
    ["ip"; "-6"; "rule"; "add"; "oif"; name0; "lookup"; table0];
    ["ip"; "-6"; "rule"; "add"; "iif"; name0; "lookup"; table0] ].
Proof.
  intros Hname Htable. unfold create_commands. cbn [map].
  repeat f_equal.
  - change ("ip link add " ++ name0 ++ " type vrf table " ++ table0)%string
      with (String.concat " " ["ip"; "link"; "add"; name0; "type"; "vrf"; "table"; table0]).
    apply split_concat. all_words.
  - change ("ip link set dev " ++ name0 ++ " up")%string
      with (String.concat " " ["ip"; "link"; "set"; "dev"; name0; "up"]).
    apply split_concat. all_words.
  - change ("ip -4 rule add oif " ++ name0 ++ " lookup " ++ table0)%string
      with (String.concat " " ["ip"; "-4"; "rule"; "add"; "oif"; name0; "lookup"; table0]).
    apply split_concat. all_words.
  - change ("ip -4 rule add iif " ++ name0 ++ " lookup " ++ table0)%string
      with (String.concat " " ["ip"; "-4"; "rule"; "add"; "iif"; name0; "lookup"; table0]).
    apply split_concat. all_words.
  - change ("ip -6 rule add oif " ++ name0 ++ " lookup " ++ table0)%string
      with (String.concat " " ["ip"; "-6"; "rule"; "add"; "oif"; name0; "lookup"; table0]).
    apply split_concat. all_words.
  - change ("ip -6 rule add iif " ++ name0 ++ " lookup " ++ table0)%string
      with (String.concat " " ["ip"; "-6"; "rule"; "add"; "iif"; name0; "lookup"; table0]).
    apply split_concat. all_words.
Qed.

(** [RED] with table 100. *)
Lemma create_commands_argv_RED :
  map Py.split (create_commands "RED" "100") =
  [ ["ip"; "link"; "add"; "RED"; "type"; "vrf"; "table"; "100"];
    ["ip"; "link"; "set"; "dev"; "RED"; "up"];
    ["ip"; "-4"; "rule"; "add"; "oif"; "RED"; "lookup"; "100"];
    ["ip"; "-4"; "rule"; "add"; "iif"; "RED"; "lookup"; "100"];
    ["ip"; "-6"; "rule"; "add"; "oif"; "RED"; "lookup"; "100"];
    ["ip"; "-6"; "rule"; "add"; "iif"; "RED"; "lookup"; "100"] ].
Proof.
  apply (@create_commands_argv "RED" "100").
  - split; [discriminate | reflexivity].
  - split; [discriminate | reflexivity].
Defined.

(* ================================================================== *)
(** ** The members of an entry *)

Lemma read_vrf_members (conf : Config) (cfg_base : path) (n : string) :
  members (read_vrf conf cfg_base n) = interfaces_with_vrf conf n.
Proof.
  unfold read_vrf.
  now destruct (exists_ conf ((cfg_base ++ ["name"; n]) ++ ["table"])).
Qed.

(** X14: in the configuration that [get_config] returns, the members of
    every entry, of [vrf_add] and of [vrf_remove] alike, are exactly the
    interfaces whose ['vrf'] attribute is the name of that entry. *)
Theorem members_resolved (conf : Config) (ifname : string) :
  (forall vrf,
     In vrf (vrf_add (get_config conf)) ->
     (In ifname (members vrf) <->
      exists type ifs attrs,
        In (type, ifs) (get_config_dict_interfaces conf)
        /\ In (ifname, attrs) ifs
        /\ dict_get "vrf" attrs = Some (name vrf)))
  /\ (forall gone,
        In gone (vrf_remove (get_config conf)) ->
        (In ifname (gone_members gone) <->
         exists type ifs attrs,
           In (type, ifs) (get_config_dict_interfaces conf)
           /\ In (ifname, attrs) ifs
           /\ dict_get "vrf" attrs = Some (gone_name gone))).
Proof.
  split.
  - intros vrf Hin. destruct (in_vrf_add _ _ Hin) as (_ & n & _ & ->).
    rewrite read_vrf_members, read_vrf_name. apply in_interfaces_with_vrf.
  - intros gone Hin. rewrite vrf_remove_get_config, in_map_iff in Hin.
    destruct Hin as (n & <- & _). cbn [read_gone gone_members gone_name].
    apply in_interfaces_with_vrf.
Qed.
